(** * pure_recipe: a shallow embedding of [src/pure_recipe.py]

    The program scrapes a recipe from a URL, writes it as a Markdown file into
    a storage directory, and offers a small browser over the saved files.

    Python values are modelled as follows.
    - [str] is [string]; a character is a code point in the range U+0000 to
      U+00FF (Latin-1), for which [str.lower], [str.isspace] and [str.strip]
      are written out below.  Code points above U+00FF are outside the model.
    - the settings [dict] is a [gmap string pyval].
    - the outside world (web, file system, terminal, user) is the record
      [world]; every function of the program is a computation in the
      state-and-exception monad [M]. *)

From Stdlib Require Import Ascii String.
From stdpp Require Import gmap strings list fin_maps pretty.

(** ** Python strings *)

Module Str.

Definition LF : ascii := "010"%char.
Definition CR : ascii := "013"%char.

(** [str.isspace] on one Latin-1 character: the characters whose
    bidirectional class is WS, B or S, and the separator U+00A0. *)
Definition isspace (c : ascii) : bool :=
  match c with
  | "009" | "010" | "011" | "012" | "013"
  | "028" | "029" | "030" | "031" | " " | "133" | "160" => true
  | _ => false
  end%char.

(** [str.lower] on one Latin-1 character: A-Z, and U+00C0..U+00DE without
    the multiplication sign U+00D7, move up by 32. *)
Definition lower_char (c : ascii) : ascii :=
  let n := N_of_ascii c in
  if ((65 <=? n) && (n <=? 90) ||
      (192 <=? n) && (n <=? 222) && negb (n =? 215))%N
  then ascii_of_N (n + 32) else c.

Fixpoint map (f : ascii → ascii) (s : string) : string :=
  match s with
  | EmptyString => EmptyString
  | String c s' => String (f c) (map f s')
  end.

Definition lower (s : string) : string := map lower_char s.

(** [s.replace(old, new)] for one-character [old] and [new]. *)
Definition replace (old new : ascii) (s : string) : string :=
  map (λ c, if Ascii.eqb c old then new else c) s.

Definition is_empty (s : string) : bool :=
  match s with EmptyString => true | _ => false end.

(** [s.lstrip(chars)] and [s.rstrip(chars)], the character set given as a
    predicate. *)
Fixpoint lstrip_by (p : ascii → bool) (s : string) : string :=
  match s with
  | EmptyString => EmptyString
  | String c s' => if p c then lstrip_by p s' else s
  end.

Fixpoint rstrip_by (p : ascii → bool) (s : string) : string :=
  match s with
  | EmptyString => EmptyString
  | String c s' =>
      let r := rstrip_by p s' in
      if is_empty r && p c then EmptyString else String c r
  end.

(** [s.strip()] *)
Definition strip (s : string) : string :=
  rstrip_by isspace (lstrip_by isspace s).

Fixpoint endswith_go (s suffix : string) (n : nat) : bool :=
  match n, s with
  | O, _ => String.eqb s suffix
  | S n', String _ s' => endswith_go s' suffix n'
  | S _, EmptyString => false
  end.

(** [s.endswith(suffix)] *)
Definition endswith (s suffix : string) : bool :=
  endswith_go s suffix (String.length s - String.length suffix).

Definition startswith (s pre : string) : bool := String.prefix pre s.

(** The lines of a file opened in text mode, as [for line in f] and
    [f.readlines()] give them: each line keeps its terminator, and the
    terminators CR and CR LF are read as LF (universal newlines). *)
Fixpoint readlines (s : string) : list string :=
  match s with
  | EmptyString => []
  | String c s' =>
      if Ascii.eqb c LF then String LF EmptyString :: readlines s'
      else if Ascii.eqb c CR then
        match s' with
        | String c' s'' =>
            if Ascii.eqb c' LF then String LF EmptyString :: readlines s''
            else String LF EmptyString :: readlines s'
        | EmptyString => [String LF EmptyString]
        end
      else
        match readlines s' with
        | [] => [String c EmptyString]
        | l :: ls => String c l :: ls
        end
  end.

(** [f.readline()] on a freshly opened file. *)
Definition readline (s : string) : string :=
  match readlines s with
  | [] => EmptyString
  | l :: _ => l
  end.

(** The text of a document before its first line feed. *)
Fixpoint first_line (s : string) : string :=
  match s with
  | EmptyString => EmptyString
  | String c s' => if Ascii.eqb c LF then EmptyString else String c (first_line s')
  end.

Fixpoint mem (c : ascii) (s : string) : bool :=
  match s with
  | EmptyString => false
  | String c' s' => Ascii.eqb c c' || mem c s'
  end.

Definition nl : string := String LF EmptyString.

End Str.

(** ** File names *)

(** The loop of [format_file_name]: [for i, char in enumerate(s)] over the
    list [s] that the body updates in place.  [n] counts the iterations that
    are left, [i] is the index of the next one. *)
Fixpoint format_file_name_loop (n i : nat) (s : list ascii) : list ascii :=
  match n with
  | O => s
  | S n' =>
      match s !! i with
      | Some char =>
          format_file_name_loop n' (S i)
            (if Str.isspace char then <[i := "-"%char]> s else s)
      | None => s
      end
  end.

Definition format_file_name (recipe_title : string) : string :=
  let s := list_ascii_of_string (Str.lower recipe_title) in
  string_of_list_ascii (format_file_name_loop (length s) 0 s).

(** What the loop does to one character. *)
Definition hyphenate (c : ascii) : ascii := if Str.isspace c then "-"%char else c.

(** The name [save_recipe_to_markdown] gives the file of a recipe, without
    the directory: lines 81 and 82. *)
Definition recipe_file_name (scraped_title : string) : string :=
  let title := Str.replace " " "-" scraped_title in
  format_file_name title +:+ ".md".

(** Filename derivation in the words of the specification: lowercase the
    title, replace every whitespace character with a hyphen, append ".md". *)
Definition derive_filename_spec (title : string) : string :=
  Str.map (λ c, if Str.isspace c then "-"%char else c) (Str.lower title) +:+ ".md".


(** ** Python values and exceptions *)

(** The values [yaml.safe_load] puts into the settings dictionary.  Floats,
    dates and nested mappings are left out: the program only tests such a
    value for truth or uses it as a path. *)
#[warnings="-register-all"] Inductive pyval :=
| PNone
| PBool (b : bool)
| PInt (n : Z)
| PStr (s : string)
| PBytes (s : string)
| PList (l : list pyval).

Definition truthy (v : pyval) : bool :=
  match v with
  | PNone => false
  | PBool b => b
  | PInt n => negb (n =? 0)%Z
  | PStr s | PBytes s => negb (Str.is_empty s)
  | PList l => match l with [] => false | _ => true end
  end.

Definition type_name (v : pyval) : string :=
  match v with
  | PNone => "NoneType"
  | PBool _ => "bool"
  | PInt _ => "int"
  | PStr _ => "str"
  | PBytes _ => "bytes"
  | PList _ => "list"
  end.

(** A document as [yaml.safe_load] returns it: a mapping, or anything else
    (a scalar, a sequence, or [PNone] for an empty file). *)
Inductive yaml_doc :=
| YMapping (m : gmap string pyval)
| YOther (v : pyval).

(** The exception classes the program can meet.  All of them derive from
    [Exception]; [OtherError] stands for the classes of the scraping library. *)
Inductive exn_class :=
| FileNotFoundError
| IsADirectoryError
| NotADirectoryError
| FileExistsError
| OSError
| UnboundLocalError
| KeyError
| TypeError
| AttributeError
| RecursionError
| YAMLError
| OtherError.

Record exn := Exn { exn_cls : exn_class; exn_msg : string }.

(** [isinstance(e, OSError)]; [IOError] is the same class. *)
Definition is_OSError (c : exn_class) : bool :=
  match c with
  | FileNotFoundError | IsADirectoryError | NotADirectoryError
  | FileExistsError | OSError => true
  | _ => false
  end.

Definition is_FileNotFoundError (c : exn_class) : bool :=
  match c with FileNotFoundError => true | _ => false end.

Definition errno (c : exn_class) : string :=
  match c with
  | FileNotFoundError => "2"
  | IsADirectoryError => "21"
  | NotADirectoryError => "20"
  | FileExistsError => "17"
  | OSError => "9"
  | _ => "None"
  end.

Definition strerror (c : exn_class) : string :=
  match c with
  | FileNotFoundError => "No such file or directory"
  | IsADirectoryError => "Is a directory"
  | NotADirectoryError => "Not a directory"
  | FileExistsError => "File exists"
  | OSError => "Bad file descriptor"
  | _ => "None"
  end.

Definition os_error (c : exn_class) (filename : string) : exn :=
  Exn c ("[Errno " +:+ errno c +:+ "] " +:+ strerror c +:+ ": '" +:+ filename +:+ "'").

(** ** The recipe a scraper holds *)

(** The object [scrape_me] returns, by the values of the five accessors the
    program calls on it. *)
Record Recipe := {
  title : string;
  yields : option string;
  total_time : option Z;
  ingredients : list string;
  instructions_list : list string
}.

(** [str(x)] inside an f-string. *)
Definition str_opt {A} (f : A → string) (x : option A) : string :=
  match x with Some a => f a | None => "None" end.

(** ** The world *)

Inductive node :=
| Dir
| File (content : string).

(** What the program does to the outside, in the order it does it. *)
Inductive event :=
| EvScrape (url : string)
| EvPrint (text style : string)
| EvClear
| EvRender (width : nat) (md : string)
| EvPrompt (name message : string) (choices : list string)
| EvWrite (file : list string).

(** The parts of the world the program only reads. *)
Record environment := {
  web : string → exn + Recipe;
  yaml_safe_load : string → exn + yaml_doc;
  user_config_dir : string;
  home : string;
  columns : nat
}.

(** The file system maps a path, as the list of its components below the
    root, to a directory or a regular file; the root itself always exists.
    Symbolic links and permissions are not modelled.  [answers] holds what the
    user will select at the coming prompts ([None]: the prompt is cancelled). *)
Record world := {
  env : environment;
  fs : gmap (list string) node;
  cwd : list string;
  answers : list (option string);
  trace : list event
}.

Definition set_fs (m : gmap (list string) node) (w : world) : world :=
  {| env := env w; fs := m; cwd := cwd w; answers := answers w; trace := trace w |}.

Definition set_cwd (d : list string) (w : world) : world :=
  {| env := env w; fs := fs w; cwd := d; answers := answers w; trace := trace w |}.

Definition set_answers (a : list (option string)) (w : world) : world :=
  {| env := env w; fs := fs w; cwd := cwd w; answers := a; trace := trace w |}.

Definition log (e : event) (w : world) : world :=
  {| env := env w; fs := fs w; cwd := cwd w; answers := answers w;
     trace := trace w ++ [e] |}.

(** *** Paths *)

(** The components of a path string, empty ones included. *)
Fixpoint split_slash (s : string) : list string :=
  match s with
  | EmptyString => [EmptyString]
  | String c s' =>
      if Ascii.eqb c "/" then EmptyString :: split_slash s'
      else match split_slash s' with
           | [] => [String c EmptyString]
           | x :: xs => String c x :: xs
           end
  end.

Definition walk (base : list string) (comps : list string) : list string :=
  foldl (λ acc c,
           if Str.is_empty c || String.eqb c "." then acc
           else if String.eqb c ".." then removelast acc
           else acc ++ [c]) base comps.

(** The file a path string names in a process whose working directory is
    [wd]. *)
Definition resolve (wd : list string) (p : string) : list string :=
  walk (if Str.startswith p "/" then [] else wd) (split_slash p).

(** [os.path.join(a, b)] *)
Definition os_path_join (a b : string) : string :=
  if Str.startswith b "/" then b
  else if Str.is_empty a || Str.endswith a "/" then a +:+ b
  else a +:+ "/" +:+ b.

Definition is_dir (m : gmap (list string) node) (k : list string) : bool :=
  match k with
  | [] => true
  | _ => match m !! k with Some Dir => true | _ => false end
  end.

Definition is_file (m : gmap (list string) node) (k : list string) : bool :=
  match m !! k with Some (File _) => true | _ => false end.

Fixpoint strip_prefix (pre l : list string) : option (list string) :=
  match pre, l with
  | [], _ => Some l
  | a :: pre', b :: l' => if String.eqb a b then strip_prefix pre' l' else None
  | _ :: _, [] => None
  end.

(** The names of the entries of directory [k]. *)
Definition entries (m : gmap (list string) node) (k : list string) : list string :=
  omap (λ q, match strip_prefix k q with
             | Some [n] => Some n
             | _ => None
             end) (elements (dom m)).

(** ** The monad of the program: a state, and a result or an exception *)

Inductive res (A : Type) :=
| Ret (a : A)
| Raise (e : exn).
Arguments Ret {A} a.
Arguments Raise {A} e.

Definition M (A : Type) : Type := world → res A * world.

Definition ret {A} (a : A) : M A := λ w, (Ret a, w).

Definition raise {A} (e : exn) : M A := λ w, (Raise e, w).

Definition bind {A B} (m : M A) (k : A → M B) : M B :=
  λ w, match m w with
       | (Ret a, w') => k a w'
       | (Raise e, w') => (Raise e, w')
       end.

(** [try: body / except Exception as e: handler e] *)
Definition try_except {A} (body : M A) (handler : exn → M A) : M A :=
  λ w, match body w with
       | (Ret a, w') => (Ret a, w')
       | (Raise e, w') => handler e w'
       end.

Declare Scope py_scope.
Delimit Scope py_scope with py.
Notation "x <- m ;; k" := (bind m (λ x, k))
  (at level 100, m at next level, right associativity) : py_scope.
Notation "m ;; k" := (bind m (λ _, k))
  (at level 100, right associativity) : py_scope.
Local Open Scope py_scope.

(** [for x in l: body x] *)
Fixpoint for_each {A} (l : list A) (body : A → M unit) : M unit :=
  match l with
  | [] => ret tt
  | x :: l' => body x ;; for_each l' body
  end.

(** A loop that carries an accumulator. *)
Fixpoint fold_each {A B} (l : list A) (acc : B) (body : B → A → M B) : M B :=
  match l with
  | [] => ret acc
  | x :: l' => acc' <- body acc x ;; fold_each l' acc' body
  end.

Definition emit (e : event) : M unit := λ w, (Ret tt, log e w).

(** ** The libraries the program calls *)

(** [console.print(text, style=style)] on the global console. *)
Definition console_print (text style : string) : M unit := emit (EvPrint text style).

(** [scrape_me(url)] *)
Definition scrape_me (url : string) : M Recipe :=
  emit (EvScrape url) ;;
  λ w, match web (env w) url with
       | inr r => (Ret r, w)
       | inl e => (Raise e, w)
       end.

(** Reading a local variable that may not have been bound. *)
Definition local {A} (name : string) (v : option A) : M A :=
  match v with
  | Some a => ret a
  | None =>
      raise (Exn UnboundLocalError
               ("cannot access local variable '" +:+ name +:+
                "' where it is not associated with a value"))
  end.

(** The exception line 81 raises after a scrape failure: the variable
    [scraper] was never bound. *)
Definition unbound_scraper : exn :=
  Exn UnboundLocalError
    "cannot access local variable 'scraper' where it is not associated with a value".

(** [d.get(key)] and [d[key]] on the settings dictionary. *)
Definition dict_get (d : gmap string pyval) (key : string) : pyval :=
  default PNone (d !! key).

Definition dict_getitem (d : gmap string pyval) (key : string) : M pyval :=
  match d !! key with
  | Some v => ret v
  | None => raise (Exn KeyError ("'" +:+ key +:+ "'"))
  end.

(** [v + s] for a string [s]. *)
Definition add_str (v : pyval) (s : string) : M string :=
  match v with
  | PStr d => ret (d +:+ s)
  | PList _ => raise (Exn TypeError "can only concatenate list (not 'str') to list")
  | PBytes _ => raise (Exn TypeError "can't concat str to bytes")
  | _ => raise (Exn TypeError ("unsupported operand type(s) for +: '" +:+
                               type_name v +:+ "' and 'str'"))
  end.

(** [answer[key]] on what [inquirer.prompt] returned. *)
Definition subscript (answer : option string) : M string :=
  match answer with
  | Some a => ret a
  | None => raise (Exn TypeError "'NoneType' object is not subscriptable")
  end.

(** [open(p, "w")] and [open(p, "w+")]: the file is created or emptied; the
    result stands for the open file. *)
Definition open_w (p : string) : M (list string) :=
  λ w, let k := resolve (cwd w) p in
       if Str.is_empty p then (Raise (os_error FileNotFoundError p), w)
       else if is_dir (fs w) k then (Raise (os_error IsADirectoryError p), w)
       else if is_dir (fs w) (removelast k) then
         (Ret k, log (EvWrite k) (set_fs (<[k := File EmptyString]> (fs w)) w))
       else if is_file (fs w) (removelast k) then
         (Raise (os_error NotADirectoryError p), w)
       else (Raise (os_error FileNotFoundError p), w).

Definition node_append (text : string) (n : node) : node :=
  match n with
  | File c => File (c +:+ text)
  | Dir => Dir
  end.

(** [f.write(text)] *)
Definition fwrite (f : list string) (text : string) : M unit :=
  λ w, (Ret tt, set_fs (alter (node_append text) f (fs w)) w).

(** [print(text, file=f)] *)
Definition fprint (f : list string) (text : string) : M unit :=
  fwrite f (text +:+ Str.nl).

(** [open(p, "r")] with everything the file holds: what [f.read()],
    [f.readline()] and [for line in f] then work on.  The text is taken when
    the file is opened. *)
Definition open_r (p : string) : M string :=
  λ w, let k := resolve (cwd w) p in
       if Str.is_empty p then (Raise (os_error FileNotFoundError p), w)
       else if is_dir (fs w) k then (Raise (os_error IsADirectoryError p), w)
       else match fs w !! k with
            | Some (File c) => (Ret c, w)
            | _ => (Raise (os_error FileNotFoundError p), w)
            end.

(** [f.read()] in text mode. *)
Definition read_text (content : string) : string :=
  foldr String.append EmptyString (Str.readlines content).

(** [os.path.exists(p)] *)
Definition os_path_exists (p : string) : M bool :=
  λ w, let k := resolve (cwd w) p in
       (Ret (negb (Str.is_empty p) && (is_dir (fs w) k || is_file (fs w) k)), w).

Fixpoint makedirs_from (m : gmap (list string) node) (made : list string)
    (rest : list string) : option (gmap (list string) node) :=
  match rest with
  | [] => Some m
  | n :: rest' =>
      let k := made ++ [n] in
      if is_file m k then None
      else makedirs_from (<[k := Dir]> m) k rest'
  end.

(** [os.makedirs(p, exist_ok=True)] *)
Definition os_makedirs (p : pyval) : M unit :=
  match p with
  | PStr s | PBytes s =>
      λ w, if Str.is_empty s then (Raise (os_error FileNotFoundError s), w)
           else match makedirs_from (fs w) [] (resolve (cwd w) s) with
                | Some m => (Ret tt, set_fs m w)
                | None => (Raise (os_error FileExistsError s), w)
                end
  | _ => raise (Exn TypeError ("expected str, bytes or os.PathLike object, not " +:+
                               type_name p))
  end.

(** [os.chdir(p)] *)
Definition os_chdir (p : pyval) : M unit :=
  match p with
  | PStr s | PBytes s =>
      λ w, let k := resolve (cwd w) s in
           if Str.is_empty s then (Raise (os_error FileNotFoundError s), w)
           else if is_dir (fs w) k then (Ret tt, set_cwd k w)
           else if is_file (fs w) k then (Raise (os_error NotADirectoryError s), w)
           else (Raise (os_error FileNotFoundError s), w)
  | PInt _ | PBool _ => raise (Exn OSError "[Errno 9] Bad file descriptor")
  | _ => raise (Exn TypeError
                  ("chdir: path should be string, bytes, os.PathLike or integer, not " +:+
                   type_name p))
  end.

(** [os.listdir(p)] *)
Definition os_listdir (p : pyval) : M (list string) :=
  match p with
  | PStr s | PBytes s =>
      λ w, let k := resolve (cwd w) s in
           if Str.is_empty s then (Raise (os_error FileNotFoundError s), w)
           else if is_dir (fs w) k then (Ret (entries (fs w) k), w)
           else if is_file (fs w) k then (Raise (os_error NotADirectoryError s), w)
           else (Raise (os_error FileNotFoundError s), w)
  | PInt _ | PBool _ => raise (Exn OSError "[Errno 9] Bad file descriptor")
  | _ => raise (Exn TypeError
                  ("listdir: path should be string, bytes, os.PathLike or integer, not " +:+
                   type_name p))
  end.

(** [os.path.join(directory, filename)] for a [filename] that is a string. *)
Definition path_join (directory : pyval) (filename : string) : M string :=
  match directory with
  | PStr d => ret (os_path_join d filename)
  | PBytes _ => raise (Exn TypeError "Can't mix strings and bytes in path components")
  | _ => raise (Exn TypeError ("expected str, bytes or os.PathLike object, not " +:+
                               type_name directory))
  end.

(** [inquirer.prompt] with one list question: the next answer of the user. *)
Definition inquirer_prompt (name message : string) (choices : list string)
    : M (option string) :=
  emit (EvPrompt name message choices) ;;
  λ w, match answers w with
       | a :: rest => (Ret a, set_answers rest w)
       | [] => (Ret None, w)
       end.

(** ** The program *)

Definition get_console_width : M nat :=
  λ w, (Ret (Nat.min (columns (env w)) 80), w).

Definition clear_console : M unit := emit EvClear.

Definition print_markdown (md_content : string) : M unit :=
  clear_console ;;
  console_width <- get_console_width ;;
  emit (EvRender console_width md_content).

Definition save_recipe_to_markdown (recipe_url : string)
    (yaml_settings : gmap string pyval) : M string :=
  scraper <- try_except
               (r <- scrape_me recipe_url ;; ret (Some r))
               (λ e, console_print
                       (Str.nl +:+ "Could not scrape recipe, error: " +:+ exn_msg e)
                       "bright_cyan bold" ;;
                     ret None) ;;
  let directory := dict_get yaml_settings "directory" in
  scraper <- local "scraper" scraper ;;
  let title := Str.replace " " "-" (title scraper) in
  prefix <- add_str directory "/" ;;
  let recipe_file := (prefix +:+ format_file_name title) +:+ ".md" in
  text_file <- open_w recipe_file ;;
  fprint text_file ("# " +:+ title) ;;
  show_yield <- dict_getitem yaml_settings "yield" ;;
  (if truthy show_yield
   then fprint text_file ("**Serves:** " +:+ str_opt id (yields scraper))
   else ret tt) ;;
  show_time <- dict_getitem yaml_settings "time" ;;
  (if truthy show_time
   then fprint text_file
          ("**Total Time:** " +:+ str_opt pretty (total_time scraper) +:+ " mins")
   else ret tt) ;;
  fprint text_file (Str.nl +:+ "## Ingredients") ;;
  for_each (ingredients scraper)
    (λ ingredient, fprint text_file ("- " +:+ ingredient)) ;;
  fprint text_file (Str.nl +:+ "## Instructions") ;;
  for_each (imap pair (instructions_list scraper))
    (λ '(index, instruction),
       fprint text_file (pretty (index + 1) +:+ ". " +:+ instruction)) ;;
  ret recipe_file.

Definition view_recipe (recipe_url : string) (yaml_settings : gmap string pyval)
    (prompt_save : bool) : M unit :=
  try_except
    (file_path <- save_recipe_to_markdown recipe_url yaml_settings ;;
     if Str.is_empty file_path then ret tt
     else
       content <- open_r file_path ;;
       let md_content := read_text content in
       print_markdown md_content ;;
       if prompt_save then
         after_view_answer <-
           inquirer_prompt "after_view" "What would you like to do next?"
             ["Save this recipe"; "Quit"] ;;
         choice <- subscript after_view_answer ;;
         if String.eqb choice "Save this recipe" then
           try_except
             (save_recipe_to_markdown recipe_url yaml_settings ;;
              console_print (Str.nl +:+ "Recipe saved successfully." +:+ Str.nl)
                "bright_green")
             (λ e, console_print
                     (Str.nl +:+ "Error saving the recipe: " +:+ exn_msg e +:+ Str.nl)
                     "bright_red")
         else if String.eqb choice "Quit" then ret tt
         else ret tt
       else ret tt)
    (λ e,
       if is_FileNotFoundError (exn_cls e) then
         console_print (Str.nl +:+ "Markdown file not found." +:+ Str.nl) "bright_red"
       else if is_OSError (exn_cls e) then
         console_print
           (Str.nl +:+ "I/O error(" +:+ errno (exn_cls e) +:+ "): " +:+
            strerror (exn_cls e) +:+ Str.nl) "bright_red"
       else
         console_print (Str.nl +:+ "An error occurred: " +:+ exn_msg e +:+ Str.nl)
           "bright_red").

(** The URL a line of the batch file stands for: line 193. *)
Definition single_url_of (line : string) : string :=
  Str.rstrip_by (Ascii.eqb Str.LF) (Str.strip line).

Definition save_list_of_recipes (url : string) (settings : gmap string pyval)
    : M unit :=
  try_except
    (directory <- dict_getitem settings "directory" ;;
     os_chdir directory)
    (λ e,
       (if is_FileNotFoundError (exn_cls e) then
          console_print
            (Str.nl +:+ "Directory not found. Please check the settings." +:+ Str.nl)
            "bright_red"
        else
          console_print
            (Str.nl +:+ "An error occurred while changing directory: " +:+
             exn_msg e +:+ Str.nl) "bright_red") ;;
       raise e) ;;
  try_except
    (f <- open_r url ;;
     for_each (Str.readlines f)
       (λ line,
          let single_url := single_url_of line in
          try_except
            (save_recipe_to_markdown single_url settings ;; ret tt)
            (λ e, console_print
                    (Str.nl +:+ "Error saving recipe from URL: " +:+ single_url +:+
                     ". Error: " +:+ exn_msg e +:+ Str.nl) "bright_red")))
    (λ e,
       (if is_FileNotFoundError (exn_cls e) then
          console_print
            (Str.nl +:+ "URL file not found. Please provide a valid file path." +:+
             Str.nl) "bright_red"
        else if is_OSError (exn_cls e) then
          console_print
            (Str.nl +:+ "I/O error(" +:+ errno (exn_cls e) +:+ "): " +:+
             strerror (exn_cls e) +:+ Str.nl) "bright_red"
        else
          console_print (Str.nl +:+ "An error occurred: " +:+ exn_msg e +:+ Str.nl)
            "bright_red") ;;
       raise e).

(** [d[key] = value] on a dictionary kept in insertion order. *)
Fixpoint dict_set (key value : string) (d : list (string * string))
    : list (string * string) :=
  match d with
  | [] => [(key, value)]
  | (k, v) :: d' =>
      if String.eqb k key then (k, value) :: d'
      else (k, v) :: dict_set key value d'
  end.

Fixpoint dict_lookup (key : string) (d : list (string * string)) : M string :=
  match d with
  | [] => raise (Exn KeyError ("'" +:+ key +:+ "'"))
  | (k, v) :: d' => if String.eqb k key then ret v else dict_lookup key d'
  end.

(** The title the library shows for a saved file: line 234. *)
Definition display_title (content : string) : string :=
  Str.strip (Str.lstrip_by (Ascii.eqb "#") (Str.readline content)).

(** The loop of lines 229 to 235. *)
Definition scan_directory (directory : pyval) (names : list string)
    : M (list (string * string)) :=
  fold_each names []
    (λ title_to_file filename,
       file_path <- path_join directory filename ;;
       if Str.endswith filename ".md" then
         f <- open_r file_path ;;
         let title := display_title f in
         ret (dict_set title file_path title_to_file)
       else ret title_to_file).

(** [browse_recipes] calls itself for "Back to menu"; [depth] is the number
    of calls the interpreter still allows before it raises [RecursionError]. *)
Fixpoint browse_recipes (depth : nat) (settings : gmap string pyval) : M unit :=
  match depth with
  | O => raise (Exn RecursionError "maximum recursion depth exceeded")
  | S depth' =>
      let directory := dict_get settings "directory" in
      if negb (truthy directory) then
        console_print (Str.nl +:+ "Directory not specified in the settings." +:+ Str.nl)
          "bright_red"
      else
        names <- os_listdir directory ;;
        title_to_file <- scan_directory directory names ;;
        match title_to_file with
        | [] =>
            console_print
              (Str.nl +:+ "No markdown files found in the specified directory." +:+
               Str.nl) "bright_red"
        | _ =>
            let titles := title_to_file.*1 in
            answers <-
              inquirer_prompt "recipe" "Select a recipe to view" (titles ++ ["Quit"]) ;;
            selected_title <- subscript answers ;;
            if String.eqb selected_title "Quit" then ret tt
            else
              file_path <- dict_lookup selected_title title_to_file ;;
              try_except
                (f <- open_r file_path ;;
                 print_markdown (read_text f))
                (λ e, console_print
                        (Str.nl +:+ "Error reading the file: " +:+ exn_msg e +:+ Str.nl)
                        "bright_red") ;;
              back_to_menu_answer <-
                inquirer_prompt "back_to_menu" "What would you like to do next?"
                  ["Back to menu"; "Quit"] ;;
              choice <- subscript back_to_menu_answer ;;
              if String.eqb choice "Quit" then ret tt
              else if String.eqb choice "Back to menu" then
                browse_recipes depth' settings
              else ret tt
        end
  end.

(** What [yaml.dump] writes for the settings of a first run. *)
Definition default_config_text : string :=
  "directory: null" +:+ Str.nl +:+ "time: true" +:+ Str.nl +:+ "yield: true" +:+ Str.nl.

(** [yaml.safe_load(file) or {}], and the [settings.get] that follows: a
    value that is true and no mapping has no [get]. *)
Definition settings_of_doc (doc : yaml_doc) : M (gmap string pyval) :=
  match doc with
  | YMapping m => ret m
  | YOther v =>
      if truthy v then
        raise (Exn AttributeError
                 ("'" +:+ type_name v +:+ "' object has no attribute 'get'"))
      else ret ∅
  end.

(** [settings.setdefault(key, value)] *)
Definition setdefault (key : string) (value : pyval) (d : gmap string pyval)
    : gmap string pyval :=
  match d !! key with
  | Some _ => d
  | None => <[key := value]> d
  end.

(** Reading a value of the environment. *)
Definition getenv {A} (f : environment → A) : M A := λ w, (Ret (f (env w)), w).

(** [yaml.safe_load(file)] on an open file that holds [text]. *)
Definition yaml_load (text : string) : M yaml_doc :=
  λ w, match yaml_safe_load (env w) text with
       | inr doc => (Ret doc, w)
       | inl e => (Raise e, w)
       end.

Definition load_yaml : M (gmap string pyval) :=
  user_config_dir <- getenv user_config_dir ;;
  let config_dir := os_path_join user_config_dir "pure_recipe" in
  let config_path := os_path_join config_dir "config.yaml" in
  os_makedirs (PStr config_dir) ;;
  config_exists <- os_path_exists config_path ;;
  (if negb config_exists then
     file <- open_w config_path ;;
     fwrite file default_config_text
   else ret tt) ;;
  file <- open_r config_path ;;
  doc <- yaml_load file ;;
  settings <- settings_of_doc doc ;;
  let recipe_directory := dict_get settings "directory" in
  chosen <-
    (if negb (truthy recipe_directory) then
       home <- getenv home ;;
       let recipe_directory :=
         os_path_join (os_path_join home "Documents") "pure_recipes" in
       ret (PStr recipe_directory, <["directory" := PStr recipe_directory]> settings)
     else ret (recipe_directory, settings)) ;;
  let '(recipe_directory, settings) := chosen in
  os_makedirs recipe_directory ;;
  let settings := setdefault "time" (PBool true) settings in
  let settings := setdefault "yield" (PBool true) settings in
  ret settings.

(** The paths [load_yaml] works with, and the directory it goes on with
    after lines 304 to 309. *)
Definition config_dir (e : environment) : string :=
  os_path_join (user_config_dir e) "pure_recipe".

Definition config_path (e : environment) : string :=
  os_path_join (config_dir e) "config.yaml".

Definition default_directory (e : environment) : string :=
  os_path_join (os_path_join (home e) "Documents") "pure_recipes".

Definition configured_directory (e : environment) (settings : gmap string pyval)
    : pyval :=
  if negb (truthy (dict_get settings "directory"))
  then PStr (default_directory e)
  else dict_get settings "directory".

(** [os.makedirs(p, exist_ok=True)] would succeed. *)
Definition can_makedirs (w : world) (p : string) : Prop :=
  is_Some (makedirs_from (fs w) [] (resolve (cwd w) p)).

(** [main], with the two arguments [parse_arguments] returns. *)
Definition main (depth : nat) (operations url : string) : M unit :=
  settings <- load_yaml ;;
  try_except
    (if String.eqb operations "view" then view_recipe url settings true
     else if String.eqb operations "save" then
       save_recipe_to_markdown url settings ;; ret tt
     else if String.eqb operations "list" then save_list_of_recipes url settings
     else if String.eqb operations "browse" then browse_recipes depth settings
     else console_print "Invalid operation. See documentation." "bright_red")
    (λ e, console_print (Str.nl +:+ "An error occurred: " +:+ exn_msg e)
            "bright_red bold").

(** ** What a run leaves behind *)

(** The lines a loop of [print] calls writes, [f x] for every [x] of [l]. *)
Definition lines_of {A} (f : A → string) (l : list A) : string :=
  foldr (λ x rest, (f x +:+ Str.nl) +:+ rest) EmptyString l.

(** The text that [save_recipe_to_markdown] has printed into the file of
    recipe [r] when it returns, lines 85 to 100. *)
Definition markdown_document (r : Recipe) (show_yield show_time : bool) : string :=
  let title := Str.replace " " "-" (title r) in
  (("# " +:+ title) +:+ Str.nl) +:+
  (if show_yield
   then ("**Serves:** " +:+ str_opt id (yields r)) +:+ Str.nl
   else EmptyString) +:+
  (if show_time
   then ("**Total Time:** " +:+ str_opt pretty (total_time r) +:+ " mins") +:+ Str.nl
   else EmptyString) +:+
  ((Str.nl +:+ "## Ingredients") +:+ Str.nl) +:+
  lines_of (λ ingredient, "- " +:+ ingredient) (ingredients r) +:+
  ((Str.nl +:+ "## Instructions") +:+ Str.nl) +:+
  lines_of (λ '(index, instruction), pretty (index + 1) +:+ ". " +:+ instruction)
    (imap pair (instructions_list r)).

(** The path [save_recipe_to_markdown] writes a recipe to, line 82. *)
Definition recipe_path (directory scraped_title : string) : string :=
  directory +:+ "/" +:+ recipe_file_name scraped_title.

(** The URLs handed to the scraper, the files opened for writing, and the
    messages printed on the console, each in the order of the trace. *)
Definition scrapes (t : list event) : list string :=
  omap (λ e, match e with EvScrape u => Some u | _ => None end) t.

Definition writes (t : list event) : list (list string) :=
  omap (λ e, match e with EvWrite k => Some k | _ => None end) t.

Definition prints (t : list event) : list string :=
  omap (λ e, match e with EvPrint text _ => Some text | _ => None end) t.

Definition prompts (t : list event) : list string :=
  omap (λ e, match e with EvPrompt name _ _ => Some name | _ => None end) t.

(** A computation that hands exactly the URLs [urls] to the scraper, whether
    it returns or raises. *)
Definition attempts {A} (urls : list string) (m : M A) : Prop :=
  ∀ w, scrapes (trace (m w).2) = scrapes (trace w) ++ urls.

(** Saving one URL after the other, as a user does who runs the [save]
    operation several times. *)
Fixpoint save_each (urls : list string) (settings : gmap string pyval)
    : M (list string) :=
  match urls with
  | [] => ret []
  | url :: urls' =>
      recipe_file <- save_recipe_to_markdown url settings ;;
      rest <- save_each urls' settings ;;
      ret (recipe_file :: rest)
  end.

(** ** Concrete worlds *)

Module Demo.

Definition lemon_cake : Recipe :=
  {| title := "Lemon Cake";
     yields := Some "8 servings";
     total_time := Some 45%Z;
     ingredients := ["2 lemons"; "200 g flour"];
     instructions_list := ["Mix."; "Bake."] |}.

Definition soup : Recipe :=
  {| title := "Soup";
     yields := None;
     total_time := Some 20%Z;
     ingredients := ["water"];
     instructions_list := ["boil"] |}.

Definition the_web (url : string) : exn + Recipe :=
  if String.eqb url "https://example.com/lemon-cake" then inr lemon_cake
  else if String.eqb url "https://example.com/soup" then inr soup
  else inl (Exn OtherError ("no recipe at " +:+ url)).

Definition settings : gmap string pyval :=
  {[ "directory" := PStr "/home/cook/recipes";
     "time" := PBool true;
     "yield" := PBool true ]}.

Definition binary_config : string := "directory: !!binary L3RtcC9y" +:+ Str.nl.

Definition sequence_config : string := "- soup" +:+ Str.nl.

Definition time_off_config : string := "time: false" +:+ Str.nl.

(** What [yaml.safe_load] returns for the texts used below: the mapping
    of a first run, a mapping whose directory is the byte string of
    "/tmp/r" in base 64, a sequence, a mapping without a directory, and
    an empty file. *)
Definition the_yaml (text : string) : exn + yaml_doc :=
  if String.eqb text default_config_text then
    inr (YMapping {[ "directory" := PNone; "time" := PBool true;
                     "yield" := PBool true ]})
  else if String.eqb text binary_config then
    inr (YMapping {[ "directory" := PBytes "/tmp/r" ]})
  else if String.eqb text sequence_config then
    inr (YOther (PList [PStr "soup"]))
  else if String.eqb text time_off_config then
    inr (YMapping {[ "time" := PBool false ]})
  else if Str.is_empty text then inr (YOther PNone)
  else inl (Exn YAMLError "could not parse the document").

Definition the_env : environment :=
  {| web := the_web;
     yaml_safe_load := the_yaml;
     user_config_dir := "/home/cook/.config";
     home := "/home/cook";
     columns := 120 |}.

Definition home_dirs : gmap (list string) node :=
  {[ ["home"] := Dir; ["home"; "cook"] := Dir;
     ["home"; "cook"; "recipes"] := Dir ]}.

(** The storage directory exists and is empty; the user will answer
    [answers]. *)
Definition start (files : gmap (list string) node)
    (answers : list (option string)) : world :=
  {| env := the_env;
     fs := files ∪ home_dirs;
     cwd := ["home"; "cook"];
     answers := answers;
     trace := [] |}.

Definition lemon_cake_file : list string :=
  ["home"; "cook"; "recipes"; "lemon-cake.md"].

Definition soup_file : list string :=
  ["home"; "cook"; "recipes"; "soup.md"].

(** A batch file of three URLs; the second one is no recipe. *)
Definition three_urls : string :=
  "https://example.com/lemon-cake" +:+ Str.nl +:+
  "https://example.com/missing" +:+ Str.nl +:+
  "https://example.com/soup" +:+ Str.nl.

(** A batch file with a blank line between two URLs. *)
Definition urls_with_blank : string :=
  "https://example.com/lemon-cake" +:+ Str.nl +:+
  "  " +:+ Str.nl +:+
  "https://example.com/soup" +:+ Str.nl.

Definition batch_world (text : string) : world :=
  start {[ ["home"; "cook"; "urls.txt"] := File text ]} [].

(** The runs looked at below. *)
Definition saved_lemon_cake : res string * world :=
  save_recipe_to_markdown "https://example.com/lemon-cake" settings (start ∅ []).

Definition saved_missing : res string * world :=
  save_recipe_to_markdown "https://example.com/missing" settings (start ∅ []).

Definition batch_three : res unit * world :=
  save_list_of_recipes "/home/cook/urls.txt" settings (batch_world three_urls).

Definition batch_blank : res unit * world :=
  save_list_of_recipes "/home/cook/urls.txt" settings (batch_world urls_with_blank).

(** A storage directory that holds one file, which is no Markdown file. *)
Definition notes_world : world :=
  start {[ ["home"; "cook"; "recipes"; "notes.txt"] := File "buy lemons" ]} [].

Definition config_file : list string :=
  ["home"; "cook"; ".config"; "pure_recipe"; "config.yaml"].

(** A world whose configuration file holds [text]. *)
Definition config_world (text : string) : world :=
  start {[ ["home"; "cook"; ".config"] := Dir;
           ["home"; "cook"; ".config"; "pure_recipe"] := Dir;
           config_file := File text ]} [].

End Demo.

(** ** What a computation leaves alone *)

(** The part of the world that belongs to the interactive session: the
    environment, the working directory, the answers the user has not given
    yet, and the prompts shown so far. *)
Definition session (w : world)
    : environment * list string * list (option string) * list string :=
  (env w, cwd w, answers w, prompts (trace w)).

(** A computation that leaves the session as it is, whether it returns or
    raises. *)
Definition keeps_session {A} (m : M A) : Prop :=
  ∀ w, session (m w).2 = session w.

(** A computation that leaves the file system as it is. *)
Definition keeps_files {A} (m : M A) : Prop :=
  ∀ w, fs (m w).2 = fs w.

(** ** Directories as the program expects them *)

(** A name that stands for itself in a path: not empty, not "." or "..",
    and without a slash. *)
Definition simple_name (name : string) : bool :=
  negb (Str.is_empty name) && negb (String.eqb name ".")
  && negb (String.eqb name "..") && negb (Str.mem "/" name).

(** A directory whose entries have simple names and whose entries named
    "*.md" are regular files. *)
Definition plain_directory (m : gmap (list string) node) (k : list string) : Prop :=
  ∀ name, is_Some (m !! (k ++ [name])) →
          simple_name name = true
          ∧ (Str.endswith name ".md" = true → is_file m (k ++ [name]) = true).

(** [t] is the display title of a Markdown file of directory [k] that holds
    the text [c]; [os.path.join] reaches the file from the directory string
    [d] as [path]. *)
Definition titled_file (m : gmap (list string) node) (k : list string) (d : string)
    (t path c : string) : Prop :=
  ∃ name, m !! (k ++ [name]) = Some (File c)
          ∧ Str.endswith name ".md" = true
          ∧ display_title c = t
          ∧ path = os_path_join d name.

(** The world after the user has selected a title, the file was rendered
    and the second prompt was shown; [later] are the answers still to come. *)
Definition after_selection (titles : list string) (md : string)
    (later : list (option string)) (w : world) : world :=
  set_answers later
    (log (EvPrompt "back_to_menu" "What would you like to do next?"
            ["Back to menu"; "Quit"])
       (log (EvRender (Nat.min (columns (env w)) 80) md)
          (log EvClear
             (log (EvPrompt "recipe" "Select a recipe to view" (titles ++ ["Quit"]))
                w)))).

(** ** More concrete worlds *)

Module Cases.

(** The file of "Lemon Cake" is there already, with another text. *)
Definition stale_world : world :=
  Demo.start {[ Demo.lemon_cake_file := File "an old text" ]} [].

Definition settings_without_directory : gmap string pyval :=
  {[ "time" := PBool true; "yield" := PBool true ]}.

Definition settings_without_yield : gmap string pyval :=
  {[ "directory" := PStr "/home/cook/recipes"; "time" := PBool true ]}.

Definition settings_elsewhere : gmap string pyval :=
  {[ "directory" := PStr "/home/cook/nowhere"; "time" := PBool true;
     "yield" := PBool true ]}.

Definition soup_text : string :=
  "# Soup" +:+ Str.nl +:+ "**Total Time:** 20 mins" +:+ Str.nl.

(** A storage directory with one saved recipe and one other file. *)
Definition library (answers : list (option string)) : world :=
  Demo.start {[ Demo.soup_file := File soup_text;
                ["home"; "cook"; "recipes"; "notes.txt"] := File "buy lemons" ]}
    answers.

Definition storage : list string := ["home"; "cook"; "recipes"].

End Cases.

(** * Properties *)

(** ** Strings *)

Section strings.
Implicit Types (s t : string) (c : ascii) (p : ascii → bool).

Lemma str_app_nil_l s : EmptyString +:+ s = s.
Proof. reflexivity. Qed.

Lemma str_app_cons c s t : String c s +:+ t = String c (s +:+ t).
Proof. reflexivity. Qed.

Lemma str_app_nil_r s : s +:+ EmptyString = s.
Proof. induction s as [|c s IH]; [done|]. by rewrite str_app_cons, IH. Qed.

Lemma str_app_assoc s t u : (s +:+ t) +:+ u = s +:+ (t +:+ u).
Proof. induction s as [|c s IH]; [done|]. by rewrite !str_app_cons, IH. Qed.

Lemma str_map_app f s t : Str.map f (s +:+ t) = Str.map f s +:+ Str.map f t.
Proof. induction s as [|c s IH]; [done|]. rewrite str_app_cons. simpl. by rewrite IH. Qed.

Lemma str_map_map f g s : Str.map f (Str.map g s) = Str.map (f ∘ g) s.
Proof. induction s as [|c s IH]; [done|]. simpl. by rewrite IH. Qed.

Lemma str_map_ext f g s : (∀ c, f c = g c) → Str.map f s = Str.map g s.
Proof. intros E. induction s as [|c s IH]; [done|]. simpl. by rewrite E, IH. Qed.

Lemma str_map_of_list f (l : list ascii) :
  string_of_list_ascii (f <$> l) = Str.map f (string_of_list_ascii l).
Proof.
  induction l as [|c l IH]; [done|].
  rewrite fmap_cons. cbn [string_of_list_ascii Str.map]. by rewrite IH.
Qed.

End strings.

(** ** File names *)

(** The loop that updates the list in place computes a map over it. *)
Lemma format_file_name_loop_map (s1 s2 : list ascii) :
  format_file_name_loop (length s2) (length s1) (s1 ++ s2) = s1 ++ (hyphenate <$> s2).
Proof.
  revert s1. induction s2 as [|c s2 IH]; intros s1; [done|].
  simpl. rewrite list_lookup_middle by done.
  replace (S (length s1)) with (length (s1 ++ [hyphenate c]))
    by (rewrite length_app; simpl; lia).
  replace (if Str.isspace c then <[length s1:="-"%char]> (s1 ++ c :: s2) else s1 ++ c :: s2)
    with ((s1 ++ [hyphenate c]) ++ s2).
  - rewrite IH. by rewrite <- app_assoc.
  - rewrite <- app_assoc. simpl. unfold hyphenate. destruct (Str.isspace c); [|done].
    rewrite insert_app_r_alt by lia. by rewrite Nat.sub_diag.
Qed.

Lemma format_file_name_map (t : string) :
  format_file_name t = Str.map hyphenate (Str.lower t).
Proof.
  unfold format_file_name.
  pose proof (format_file_name_loop_map [] (list_ascii_of_string (Str.lower t))) as H.
  rewrite !app_nil_l in H. change (length []) with 0 in H. rewrite H.
  by rewrite str_map_of_list, string_of_list_ascii_of_string.
Qed.

(** A space that became a hyphen beforehand ends as the same hyphen. *)
Lemma hyphenate_lower_replace (c : ascii) :
  hyphenate (Str.lower_char (if Ascii.eqb c " " then "-"%char else c))
  = hyphenate (Str.lower_char c).
Proof. destruct (Ascii.eqb_spec c " ") as [->|]; done. Qed.

(** C4: the name of the file of a recipe is a function of its title alone:
    the title in lower case, every whitespace character (space, tab, line
    feed, and the other ones) replaced by a hyphen, all other characters
    kept, and ".md" appended; the title "Lemon Cake" gives "lemon-cake.md". *)
Theorem filename_derivation (t : string) :
  recipe_file_name t = derive_filename_spec t
  ∧ recipe_file_name "Lemon Cake" = "lemon-cake.md".
Proof.
  split; [|done].
  unfold recipe_file_name, derive_filename_spec, Str.replace, Str.lower.
  rewrite format_file_name_map. unfold Str.lower. rewrite !str_map_map.
  f_equal. apply str_map_ext. intros c. apply hyphenate_lower_replace.
Qed.

(** ** Running the monad *)

Section running.
Context {A B : Type}.
Implicit Types (m : M A) (k : A → M B) (w : world).

Lemma bind_Ret m k w a w' : m w = (Ret a, w') → bind m k w = k a w'.
Proof. unfold bind. by intros ->. Qed.

Lemma bind_Raise m k w e w' : m w = (Raise e, w') → bind m k w = (Raise e, w').
Proof. unfold bind. by intros ->. Qed.

Lemma try_except_Ret m (h : exn → M A) w a w' :
  m w = (Ret a, w') → try_except m h w = (Ret a, w').
Proof. unfold try_except. by intros ->. Qed.

Lemma try_except_Raise m (h : exn → M A) w e w' :
  m w = (Raise e, w') → try_except m h w = h e w'.
Proof. unfold try_except. by intros ->. Qed.

End running.

Lemma is_empty_app (s t : string) :
  Str.is_empty (s +:+ t) = Str.is_empty s && Str.is_empty t.
Proof. by destruct s. Qed.

(** *** Writing into an open file *)

Lemma fwrite_at (k : list string) (c t : string) (m : gmap (list string) node) (w : world) :
  fs w = <[k := File c]> m →
  fwrite k t w = (Ret tt, set_fs (<[k := File (c +:+ t)]> m) w).
Proof. intros E. unfold fwrite. by rewrite E, alter_insert_eq. Qed.

Lemma fprint_at (k : list string) (c t : string) (m : gmap (list string) node) (w : world) :
  fs w = <[k := File c]> m →
  fprint k t w = (Ret tt, set_fs (<[k := File (c +:+ (t +:+ Str.nl))]> m) w).
Proof. apply fwrite_at. Qed.

Lemma set_fs_id (w : world) : set_fs (fs w) w = w.
Proof. by destruct w. Qed.

Lemma for_each_fprint_at {X} (l : list X) (body : X → M unit) (f : X → string)
    (k : list string) (c : string) (m : gmap (list string) node) (w : world) :
  (∀ x w, body x w = fprint k (f x) w) →
  fs w = <[k := File c]> m →
  for_each l body w = (Ret tt, set_fs (<[k := File (c +:+ lines_of f l)]> m) w).
Proof.
  intros Hbody. revert c w. induction l as [|x l IH]; intros c w E.
  - simpl. unfold ret. by rewrite str_app_nil_r, <- E, set_fs_id.
  - cbn [for_each]. erewrite bind_Ret by (rewrite Hbody; by apply fprint_at).
    rewrite (IH (c +:+ (f x +:+ Str.nl))) by done.
    cbn [lines_of foldr]. by rewrite str_app_assoc.
Qed.

(** *** A successful save *)

Lemma save_recipe_to_markdown_ok (w : world) (url : string) (s : gmap string pyval)
    (r : Recipe) (d : string) (y t : pyval) :
  web (env w) url = inr r →
  s !! "directory" = Some (PStr d) →
  s !! "yield" = Some y →
  s !! "time" = Some t →
  is_dir (fs w) (resolve (cwd w) (recipe_path d (title r))) = false →
  is_dir (fs w) (removelast (resolve (cwd w) (recipe_path d (title r)))) = true →
  save_recipe_to_markdown url s w =
    (Ret (recipe_path d (title r)),
     log (EvWrite (resolve (cwd w) (recipe_path d (title r))))
       (set_fs (<[resolve (cwd w) (recipe_path d (title r)) :=
                    File (markdown_document r (truthy y) (truthy t))]> (fs w))
          (log (EvScrape url) w))).
Proof.
  intros Hweb Hd Hy Ht Hk Hparent.
  set (p := recipe_path d (title r)) in *. set (k := resolve (cwd w) p) in *.
  unfold save_recipe_to_markdown.
  erewrite bind_Ret; last first.
  { apply try_except_Ret. unfold scrape_me, emit.
    erewrite bind_Ret; last first.
    { erewrite bind_Ret by done. cbn. by rewrite Hweb. }
    done. }
  unfold dict_get, dict_getitem. rewrite Hd, Hy, Ht. cbn [default local add_str].
  erewrite bind_Ret by done. erewrite bind_Ret by done.
  replace (((d +:+ "/") +:+ format_file_name (Str.replace " " "-" (title r))) +:+ ".md")
    with p by (unfold p, recipe_path, recipe_file_name; by rewrite !str_app_assoc).
  erewrite bind_Ret; last first.
  { unfold open_w. cbn [cwd fs log]. fold k.
    replace (Str.is_empty p) with false
      by (unfold p, recipe_path; by rewrite is_empty_app, andb_false_r).
    by rewrite Hk, Hparent. }
  set (w1 := log (EvWrite k) _).
  assert (fs w1 = <[k := File EmptyString]> (fs w)) as E1 by done.
  erewrite bind_Ret by (by apply fprint_at).
  set (T := Str.replace " " "-" (title r)).
  assert (∀ (b : bool) (x c : string) (w' : world),
    fs w' = <[k := File c]> (fs w) →
    (if b then fprint k x else ret tt) w' =
      (Ret tt, set_fs (<[k := File (c +:+ (if b then x +:+ Str.nl else EmptyString))]> (fs w)) w'))
    as Hif.
  { intros [] x c w' E; [by apply fprint_at|].
    unfold ret. by rewrite str_app_nil_r, <- E, set_fs_id. }
  erewrite bind_Ret by done.
  erewrite bind_Ret by (by apply Hif).
  erewrite bind_Ret by done.
  erewrite bind_Ret by (by apply Hif).
  erewrite bind_Ret by (by apply fprint_at).
  erewrite bind_Ret by (by eapply for_each_fprint_at).
  erewrite bind_Ret by (by apply fprint_at).
  erewrite bind_Ret.
  2:{ eapply (for_each_fprint_at _ _
        (λ '(index, instruction), pretty (index + 1) +:+ ". " +:+ instruction));
        [by intros [] | done]. }
  unfold ret. f_equal. unfold w1, log, set_fs. cbn. f_equal. f_equal. f_equal.
  unfold markdown_document. fold T.
  destruct (truthy y), (truthy t); by rewrite ?str_app_assoc, ?str_app_nil_l.
Qed.

(** ** The first line of a saved file *)

Lemma mem_replace (c old new : ascii) (s : string) :
  c ≠ old → c ≠ new → Str.mem c (Str.replace old new s) = Str.mem c s.
Proof.
  intros Hold Hnew. induction s as [|a s IH]; [done|].
  unfold Str.replace in *. cbn [Str.map Str.mem]. rewrite IH. f_equal.
  destruct (Ascii.eqb_spec a old) as [->|]; [|done].
  by rewrite (proj2 (Ascii.eqb_neq c new)), (proj2 (Ascii.eqb_neq c old)).
Qed.

Lemma first_line_app_nl (s rest : string) :
  Str.mem Str.LF s = false → Str.first_line (s +:+ Str.nl +:+ rest) = s.
Proof.
  induction s as [|a s IH]; [done|].
  rewrite str_app_cons. cbn [Str.mem Str.first_line].
  rewrite Ascii.eqb_sym. intros [-> Hs]%orb_false_iff. by rewrite IH.
Qed.

Lemma readlines_app_nl (s rest : string) :
  Str.mem Str.LF s = false → Str.mem Str.CR s = false →
  Str.readlines (s +:+ Str.nl +:+ rest) = (s +:+ Str.nl) :: Str.readlines rest.
Proof.
  induction s as [|a s IH]; [done|].
  rewrite !str_app_cons. cbn [Str.mem Str.readlines].
  rewrite (Ascii.eqb_sym Str.LF), (Ascii.eqb_sym Str.CR).
  intros [-> Hlf]%orb_false_iff [-> Hcr]%orb_false_iff. by rewrite IH.
Qed.

Lemma rstrip_app_nl (s : string) :
  Str.rstrip_by Str.isspace (s +:+ Str.nl) = Str.rstrip_by Str.isspace s.
Proof.
  induction s as [|a s IH]; [done|].
  rewrite str_app_cons. cbn [Str.rstrip_by]. by rewrite IH.
Qed.

Lemma strip_app_nl (s : string) : Str.strip (s +:+ Str.nl) = Str.strip s.
Proof.
  unfold Str.strip. induction s as [|a s IH]; [done|].
  rewrite str_app_cons. cbn [Str.lstrip_by]. destruct (Str.isspace a); [done|].
  by rewrite <- str_app_cons, rstrip_app_nl.
Qed.

(** The title the library reads off a document that starts with the header
    line of [t]. *)
Lemma display_title_header (t rest : string) :
  Str.mem Str.LF t = false → Str.mem Str.CR t = false →
  display_title ((("# " +:+ t) +:+ Str.nl) +:+ rest) = Str.strip t.
Proof.
  intros Hlf Hcr. unfold display_title, Str.readline.
  rewrite str_app_assoc, readlines_app_nl by done.
  change ("# " +:+ t) with (String "#" (String " " t)).
  rewrite !str_app_cons. cbn [Str.lstrip_by Ascii.eqb Bool.eqb].
  transitivity (Str.strip (t +:+ Str.nl)); [done|apply strip_app_nl].
Qed.

Lemma removelast_ne (k : list string) : k ≠ [] → removelast k ≠ k.
Proof.
  intros Hk E. apply (app_removelast_last EmptyString) in Hk.
  rewrite E in Hk. apply (f_equal length) in Hk. rewrite length_app in Hk.
  simpl in Hk. lia.
Qed.

Lemma is_dir_nonempty (m : gmap (list string) node) (k : list string) :
  is_dir m k = false → k ≠ [].
Proof. by destruct k. Qed.

Lemma is_dir_insert_file (m : gmap (list string) node) (k : list string) (c : string) :
  k ≠ [] → is_dir (<[k := File c]> m) k = false.
Proof. intros Hk. destruct k; [done|]. unfold is_dir. by rewrite lookup_insert_eq. Qed.

Lemma is_dir_insert_ne (m : gmap (list string) node) (k k' : list string) (n : node) :
  k ≠ k' → is_dir (<[k := n]> m) k' = is_dir m k'.
Proof. intros Hk. destruct k'; [done|]. unfold is_dir. by rewrite lookup_insert_ne. Qed.

(** Reading back the file a save has written. *)
Lemma open_r_written (w : world) (p doc : string) :
  Str.is_empty p = false →
  resolve (cwd w) p ≠ [] →
  fs w !! resolve (cwd w) p = Some (File doc) →
  open_r p w = (Ret doc, w).
Proof.
  intros Hp Hk E. unfold open_r. rewrite Hp. cbn zeta.
  destruct (resolve (cwd w) p) as [|a k] eqn:Ek; [done|].
  unfold is_dir. by rewrite E.
Qed.

Lemma recipe_path_nonempty (d t : string) : Str.is_empty (recipe_path d t) = false.
Proof. unfold recipe_path. by rewrite is_empty_app, andb_false_r. Qed.

Lemma inquirer_prompt_run (name message : string) (choices : list string) (w : world) :
  inquirer_prompt name message choices w =
    (Ret (hd None (answers w)),
     set_answers (tl (answers w)) (log (EvPrompt name message choices) w)).
Proof. unfold inquirer_prompt, emit, bind. destruct w as [? ? ? [|a rest] ?]; done. Qed.

Lemma print_markdown_run (md : string) (w : world) :
  print_markdown md w =
    (Ret tt, log (EvRender (Nat.min (columns (env w)) 80) md) (log EvClear w)).
Proof. done. Qed.

Section saved.
Variables (w : world) (url : string) (s : gmap string pyval).
Variables (r : Recipe) (d : string) (y t : pyval).
Local Abbreviation p := (recipe_path d (title r)).
Local Abbreviation k := (resolve (cwd w) p).
Local Abbreviation doc := (markdown_document r (truthy y) (truthy t)).
Hypothesis Hweb : web (env w) url = inr r.
Hypothesis Hd : s !! "directory" = Some (PStr d).
Hypothesis Hy : s !! "yield" = Some y.
Hypothesis Ht : s !! "time" = Some t.
Hypothesis Hk : is_dir (fs w) k = false.
Hypothesis Hparent : is_dir (fs w) (removelast k) = true.

(** C1, amended: the document a save writes starts with the line
    "# " followed by the scraped title in which every space is replaced by
    a hyphen. *)
Theorem saved_document_first_line :
  Str.mem Str.LF (title r) = false →
  ∃ w', save_recipe_to_markdown url s w = (Ret p, w')
        ∧ fs w' !! k = Some (File doc)
        ∧ Str.first_line doc = "# " +:+ Str.replace " " "-" (title r).
Proof using All.
  intros Hlf. eexists. split; [by apply save_recipe_to_markdown_ok|].
  split; [apply lookup_insert_eq|].
  unfold doc, markdown_document. rewrite (str_app_assoc (_ +:+ _) Str.nl).
  apply first_line_app_nl.
  change ("# " +:+ ?x) with (String "#" (String " " x)).
  cbn [Str.mem Ascii.eqb Bool.eqb Str.LF orb andb]. by rewrite mem_replace.
Qed.

(** C2, amended: the title the library reads off a saved file is the
    scraped title with every space replaced by a hyphen, trimmed of
    surrounding whitespace. *)
Theorem saved_title_round_trip :
  Str.mem Str.LF (title r) = false →
  Str.mem Str.CR (title r) = false →
  ∃ w', save_recipe_to_markdown url s w = (Ret p, w')
        ∧ open_r p w' = (Ret doc, w')
        ∧ display_title doc = Str.strip (Str.replace " " "-" (title r)).
Proof using All.
  intros Hlf Hcr. eexists. split; [by apply save_recipe_to_markdown_ok|].
  split.
  - apply open_r_written; [apply recipe_path_nonempty|..]; cbn [cwd fs log set_fs].
    + by eapply is_dir_nonempty.
    + apply lookup_insert_eq.
  - unfold doc, markdown_document. apply display_title_header; by rewrite mem_replace.
Qed.

(** A second save of the same URL finds the file in place and writes the
    same file again. *)
Lemma save_again (w2 : world) :
  env w2 = env w → cwd w2 = cwd w → fs w2 = <[k := File doc]> (fs w) →
  save_recipe_to_markdown url s w2 =
    (Ret p, log (EvWrite k) (set_fs (<[k := File doc]> (fs w)) (log (EvScrape url) w2))).
Proof using All.
  intros Eenv Ecwd Efs.
  pose proof (is_dir_nonempty _ _ Hk) as Hne.
  rewrite (save_recipe_to_markdown_ok w2 url s r d y t); rewrite ?Eenv, ?Ecwd, ?Efs; try done.
  - by rewrite insert_insert_eq.
  - by apply is_dir_insert_file.
  - rewrite is_dir_insert_ne; [done|]. by apply not_eq_sym, removelast_ne.
Qed.


End saved.

(** ** Saving the same title again *)

Lemma writes_app (t1 t2 : list event) : writes (t1 ++ t2) = writes t1 ++ writes t2.
Proof. apply omap_app. Qed.

Lemma scrapes_app (t1 t2 : list event) : scrapes (t1 ++ t2) = scrapes t1 ++ scrapes t2.
Proof. apply omap_app. Qed.

Lemma save_each_same_file (urls : list string) (T d : string) (y t : pyval)
    (s : gmap string pyval) (k : list string) (w : world) :
  s !! "directory" = Some (PStr d) →
  s !! "yield" = Some y →
  s !! "time" = Some t →
  k = resolve (cwd w) (recipe_path d T) →
  is_dir (fs w) k = false →
  is_dir (fs w) (removelast k) = true →
  (∀ u, u ∈ urls → ∃ r, web (env w) u = inr r ∧ title r = T) →
  ∃ paths w',
    save_each urls s w = (Ret paths, w')
    ∧ paths = replicate (length urls) (recipe_path d T)
    ∧ writes (trace w') = writes (trace w) ++ replicate (length urls) k
    ∧ dom (fs w') = match urls with [] => dom (fs w) | _ => {[k]} ∪ dom (fs w) end.
Proof.
  intros Hd Hy Ht. revert w. induction urls as [|u urls IH]; intros w -> Hk Hparent Hweb.
  { eexists [], w. cbn. by rewrite app_nil_r. }
  destruct (Hweb u) as (r & Hr & <-); [by left|].
  set (k := resolve (cwd w) (recipe_path d (title r))) in *.
  pose proof (is_dir_nonempty _ _ Hk) as Hne.
  cbn [save_each].
  erewrite bind_Ret by (by eapply save_recipe_to_markdown_ok).
  fold k. set (w1 := log (EvWrite k) _).
  destruct (IH w1) as (paths & w' & Hrun & -> & Hwrites & Hdom).
  - done.
  - by apply is_dir_insert_file.
  - cbn [w1 fs log set_fs cwd]. fold k.
    rewrite is_dir_insert_ne; [done|]. by apply not_eq_sym, removelast_ne.
  - intros u' Hu'. apply Hweb. by right.
  - erewrite bind_Ret by apply Hrun. eexists _, w'. split; [done|].
    split; [done|]. split.
    + rewrite Hwrites. cbn [w1 trace log set_fs]. rewrite !writes_app.
      cbn. rewrite app_nil_r. by rewrite <- (assoc_L (++)).
    + rewrite Hdom. cbn [w1 fs log set_fs cwd]. fold k. rewrite dom_insert_L.
      destruct urls; [done|]. by rewrite (assoc_L (∪)), union_idemp_L.
Qed.

(** C5: saving recipes that carry the same title, any number of times,
    writes every time to the same path, so that afterwards the file system
    holds the files it held before and that one file. *)
Theorem save_is_idempotent_in_title (urls : list string) (T d : string) (y t : pyval)
    (s : gmap string pyval) (w : world) :
  s !! "directory" = Some (PStr d) →
  s !! "yield" = Some y →
  s !! "time" = Some t →
  is_dir (fs w) (resolve (cwd w) (recipe_path d T)) = false →
  is_dir (fs w) (removelast (resolve (cwd w) (recipe_path d T))) = true →
  (∀ u, u ∈ urls → ∃ r, web (env w) u = inr r ∧ title r = T) →
  urls ≠ [] →
  ∃ paths w',
    save_each urls s w = (Ret paths, w')
    ∧ length paths = length urls
    ∧ (∀ path, path ∈ paths → path = recipe_path d T)
    ∧ (∀ file, file ∈ drop (length (writes (trace w))) (writes (trace w')) →
         file = resolve (cwd w) (recipe_path d T))
    ∧ dom (fs w') = {[resolve (cwd w) (recipe_path d T)]} ∪ dom (fs w)
    ∧ (fs w !! resolve (cwd w) (recipe_path d T) = None →
         size (dom (fs w')) = S (size (dom (fs w)))).
Proof.
  intros Hd Hy Ht Hk Hparent Hweb Hurls.
  destruct (save_each_same_file urls T d y t s _ w Hd Hy Ht eq_refl Hk Hparent Hweb)
    as (paths & w' & Hrun & -> & Hwrites & Hdom).
  exists (replicate (length urls) (recipe_path d T)), w'.
  split; [done|]. split; [by rewrite length_replicate|].
  split; [by intros path [-> _]%elem_of_replicate|].
  split; [|split].
  - intros file. rewrite Hwrites, drop_app_length. by intros [-> _]%elem_of_replicate.
  - rewrite Hdom. by destruct urls.
  - intros Hfresh. rewrite Hdom. destruct urls; [done|].
    rewrite size_union, size_singleton; [done|].
    apply disjoint_singleton_l. by apply not_elem_of_dom.
Qed.

(** ** Which URLs a computation hands to the scraper *)

Create HintDb quiet.

Section attempts.
Context {A B : Type}.

Lemma quiet_ret (a : A) : attempts [] (ret a).
Proof. intros w. cbn. by rewrite app_nil_r. Qed.

Lemma quiet_raise (e : exn) : attempts [] (@raise A e).
Proof. intros w. cbn. by rewrite app_nil_r. Qed.

Lemma attempts_bind (urls : list string) (m : M A) (k : A → M B) :
  attempts urls m → (∀ a, attempts [] (k a)) → attempts urls (bind m k).
Proof.
  intros Hm Hk w. unfold bind. specialize (Hm w).
  destruct (m w) as [[a|e] w']; [|done].
  specialize (Hk a w'). cbn in *. by rewrite Hk, app_nil_r.
Qed.

Lemma attempts_try_except (urls : list string) (m : M A) (h : exn → M A) :
  attempts urls m → (∀ e, attempts [] (h e)) → attempts urls (try_except m h).
Proof.
  intros Hm Hh w. unfold try_except. specialize (Hm w).
  destruct (m w) as [[a|e] w']; [done|].
  specialize (Hh e w'). cbn in *. by rewrite Hh, app_nil_r.
Qed.

End attempts.

Lemma quiet_for_each {A} (l : list A) (body : A → M unit) :
  (∀ x, attempts [] (body x)) → attempts [] (for_each l body).
Proof.
  intros Hbody. induction l as [|x l IH]; [apply quiet_ret|].
  cbn [for_each]. apply attempts_bind; [apply Hbody|done].
Qed.

Lemma quiet_emit (e : event) :
  match e with EvScrape _ => False | _ => True end → attempts [] (emit e).
Proof. intros He w. cbn. rewrite scrapes_app. by destruct e. Qed.

Lemma quiet_console_print (text style : string) : attempts [] (console_print text style).
Proof. by apply quiet_emit. Qed.

Lemma quiet_local {A} (name : string) (v : option A) : attempts [] (local name v).
Proof. destruct v; [apply quiet_ret|apply quiet_raise]. Qed.

Lemma quiet_dict_getitem (d : gmap string pyval) (key : string) :
  attempts [] (dict_getitem d key).
Proof. unfold dict_getitem. destruct (d !! key); [apply quiet_ret|apply quiet_raise]. Qed.

Lemma quiet_add_str (v : pyval) (s : string) : attempts [] (add_str v s).
Proof. destruct v; first [apply quiet_ret|apply quiet_raise]. Qed.

Lemma quiet_fprint (f : list string) (text : string) : attempts [] (fprint f text).
Proof. intros w. cbn. by rewrite app_nil_r. Qed.

Lemma quiet_open_w (p : string) : attempts [] (open_w p).
Proof.
  intros w. unfold open_w. repeat case_match; cbn; rewrite ?scrapes_app, ?app_nil_r; done.
Qed.

Lemma attempts_scrape_me (url : string) : attempts [url] (scrape_me url).
Proof.
  intros w. unfold scrape_me, bind, emit. cbn.
  destruct (web (env w) url); cbn; by rewrite scrapes_app.
Qed.

#[local] Hint Resolve quiet_ret quiet_raise quiet_console_print quiet_local
  quiet_dict_getitem quiet_add_str quiet_fprint quiet_open_w : quiet.

Ltac quiet :=
  repeat first
    [ progress auto with quiet
    | apply attempts_bind; [|intros]
    | apply quiet_for_each; intros
    | match goal with
      | |- attempts _ (if ?b then _ else _) => destruct b
      | |- attempts _ (let '(_, _) := ?x in _) => destruct x
      end ].

(** Every call of [save_recipe_to_markdown] is one save attempt: it hands
    its URL to the scraper once, however it ends. *)
Lemma attempts_save_recipe_to_markdown (url : string) (s : gmap string pyval) :
  attempts [url] (save_recipe_to_markdown url s).
Proof.
  unfold save_recipe_to_markdown. apply attempts_bind.
  - apply attempts_try_except.
    + apply attempts_bind; [apply attempts_scrape_me|]. intros. quiet.
    + intros. quiet.
  - intros. quiet.
Qed.

(** ** The batch operation *)

Lemma rstrip_rstrip (p q : ascii → bool) (s : string) :
  (∀ c, q c = true → p c = true) →
  Str.rstrip_by q (Str.rstrip_by p s) = Str.rstrip_by p s.
Proof.
  intros Hqp. induction s as [|c s IH]; [done|]. cbn [Str.rstrip_by].
  destruct (Str.is_empty (Str.rstrip_by p s) && p c) eqn:E; [done|].
  cbn [Str.rstrip_by]. rewrite IH.
  destruct (Str.is_empty (Str.rstrip_by p s)); [|done].
  cbn in *. destruct (q c) eqn:Eq; [|done]. by rewrite (Hqp c Eq) in E.
Qed.

(** Trimming the line feed off a stripped line changes nothing. *)
Lemma single_url_of_strip (line : string) : single_url_of line = Str.strip line.
Proof.
  unfold single_url_of, Str.strip. apply rstrip_rstrip.
  by intros c <-%Ascii.eqb_eq.
Qed.

(** The body of the loop over the lines of the batch file. *)
Lemma batch_line_run (s : gmap string pyval) (line : string) (w : world) :
  ∃ w',
    try_except (save_recipe_to_markdown (single_url_of line) s ;; ret tt)
      (λ e, console_print
              (Str.nl +:+ "Error saving recipe from URL: " +:+ single_url_of line +:+
               ". Error: " +:+ exn_msg e +:+ Str.nl) "bright_red") w = (Ret tt, w')
    ∧ scrapes (trace w') = scrapes (trace w) ++ [single_url_of line].
Proof.
  match goal with |- ∃ _, ?m w = _ ∧ _ =>
    assert (attempts [single_url_of line] m) as Hm
  end.
  { apply attempts_try_except; [|intros; quiet].
    apply attempts_bind; [apply attempts_save_recipe_to_markdown|intros; quiet]. }
  specialize (Hm w). revert Hm. unfold try_except, bind.
  destruct (save_recipe_to_markdown _ s w) as [[path|e] w1]; cbn; eauto.
Qed.

Lemma batch_loop_run (s : gmap string pyval) (lines : list string) (w : world) :
  ∃ w',
    for_each lines
      (λ line,
         let single_url := single_url_of line in
         try_except (save_recipe_to_markdown single_url s ;; ret tt)
           (λ e, console_print
                   (Str.nl +:+ "Error saving recipe from URL: " +:+ single_url +:+
                    ". Error: " +:+ exn_msg e +:+ Str.nl) "bright_red")) w = (Ret tt, w')
    ∧ scrapes (trace w') = scrapes (trace w) ++ (single_url_of <$> lines).
Proof.
  revert w. induction lines as [|line lines IH]; intros w.
  { exists w. cbn. by rewrite app_nil_r. }
  destruct (batch_line_run s line w) as (w1 & Hline & Hw1).
  destruct (IH w1) as (w' & Hrest & Hw').
  exists w'. cbn [for_each]. cbn zeta. erewrite bind_Ret by apply Hline.
  split; [done|]. rewrite Hw', Hw1, fmap_cons. by rewrite <- (assoc_L (++)).
Qed.

(** C7, amended: every line of the batch file, blank or not, leads to one
    save attempt, made with the line trimmed of surrounding whitespace; the
    operation goes through all lines and returns. *)
Theorem every_line_is_attempted (w : world) (url d text : string)
    (s : gmap string pyval) :
  s !! "directory" = Some (PStr d) →
  Str.is_empty d = false →
  is_dir (fs w) (resolve (cwd w) d) = true →
  Str.is_empty url = false →
  resolve (resolve (cwd w) d) url ≠ [] →
  fs w !! resolve (resolve (cwd w) d) url = Some (File text) →
  ∃ w',
    save_list_of_recipes url s w = (Ret tt, w')
    ∧ scrapes (trace w') = scrapes (trace w) ++ (Str.strip <$> Str.readlines text).
Proof.
  intros Hd Hne Hdir Hurl Hk Hfile. unfold save_list_of_recipes.
  erewrite bind_Ret; last first.
  { apply try_except_Ret. unfold dict_getitem. rewrite Hd.
    erewrite bind_Ret by done. unfold os_chdir. by rewrite Hne, Hdir. }
  destruct (batch_loop_run s (Str.readlines text) (set_cwd (resolve (cwd w) d) w))
    as (w' & Hloop & Hw').
  exists w'. split.
  - apply try_except_Ret. erewrite bind_Ret by (by apply open_r_written). apply Hloop.
  - rewrite Hw'. cbn [trace set_cwd]. f_equal.
    apply list_fmap_ext. intros _ line _. apply single_url_of_strip.
Qed.

(** ** Browsing *)

Lemma strip_prefix_Some (pre l r : list string) :
  strip_prefix pre l = Some r ↔ l = pre ++ r.
Proof.
  revert l. induction pre as [|a pre IH]; intros l; cbn.
  { split; [by intros [= ->]|by intros ->]. }
  destruct l as [|b l]; [done|].
  destruct (String.eqb_spec a b) as [->|Hab].
  - rewrite IH. split; [by intros ->|by intros [= ->]].
  - split; [done|]. by intros [= -> _].
Qed.

(** The listing of a directory holds the names directly below it. *)
Lemma elem_of_entries (m : gmap (list string) node) (k : list string) (name : string) :
  name ∈ entries m k ↔ is_Some (m !! (k ++ [name])).
Proof.
  unfold entries. rewrite list_elem_of_omap. split.
  - intros (q & Hq & Hname). apply elem_of_elements, elem_of_dom in Hq.
    destruct (strip_prefix k q) as [[|n [|]]|] eqn:E; simplify_eq.
    apply strip_prefix_Some in E. by subst.
  - intros Hq. exists (k ++ [name]). split.
    + by apply elem_of_elements, elem_of_dom.
    + by rewrite (proj2 (strip_prefix_Some k (k ++ [name]) [name])).
Qed.

Lemma dict_get_Some (d : gmap string pyval) (key : string) (v : pyval) :
  d !! key = Some v → dict_get d key = v.
Proof. unfold dict_get. by intros ->. Qed.

Lemma dict_get_None (d : gmap string pyval) (key : string) :
  d !! key = None → dict_get d key = PNone.
Proof. unfold dict_get. by intros ->. Qed.

Lemma scan_directory_no_markdown (d : string) (names : list string) (w : world) :
  (∀ name, name ∈ names → Str.endswith name ".md" = false) →
  scan_directory (PStr d) names w = (Ret [], w).
Proof.
  unfold scan_directory. generalize (@nil (string * string)) as acc.
  induction names as [|name names IH]; intros acc Hnames; [done|].
  cbn [fold_each]. erewrite bind_Ret; [apply IH|].
  - intros n Hn. apply Hnames. by right.
  - cbn [path_join]. erewrite bind_Ret by done. rewrite Hnames; [done|by left].
Qed.

(** C8: in an existing storage directory without any entry whose name ends
    in ".md" (an empty directory included), browsing prints that no markdown
    files were found and returns; it raises nothing and shows no prompt. *)
Theorem browse_without_markdown_files (w : world) (s : gmap string pyval)
    (d : string) (depth : nat) :
  s !! "directory" = Some (PStr d) →
  Str.is_empty d = false →
  is_dir (fs w) (resolve (cwd w) d) = true →
  (∀ name, is_Some (fs w !! (resolve (cwd w) d ++ [name])) →
           Str.endswith name ".md" = false) →
  ∃ w',
    browse_recipes (S depth) s w = (Ret tt, w')
    ∧ trace w' =
        trace w ++
        [EvPrint (Str.nl +:+ "No markdown files found in the specified directory." +:+
                  Str.nl) "bright_red"]
    ∧ prompts (trace w') = prompts (trace w)
    ∧ fs w' = fs w.
Proof.
  intros Hd Hne Hdir Hnames. eexists. split; [|split; [|split]].
  - cbn [browse_recipes]. rewrite (dict_get_Some _ _ _ Hd). cbn [truthy].
    rewrite Hne. cbn [negb].
    erewrite bind_Ret; last first.
    { unfold os_listdir. by rewrite Hne, Hdir. }
    erewrite bind_Ret; last first.
    { apply scan_directory_no_markdown. intros name Hname.
      by apply Hnames, elem_of_entries. }
    done.
  - done.
  - cbn. unfold prompts. by rewrite omap_app, app_nil_r.
  - done.
Qed.


(** ** Loading the settings *)

Lemma is_file_insert_dir (m : gmap (list string) node) (k k' : list string) :
  is_file (<[k := Dir]> m) k' = if decide (k = k') then false else is_file m k'.
Proof.
  unfold is_file. case_decide as E; [subst; by rewrite lookup_insert_eq|].
  by rewrite lookup_insert_ne.
Qed.

(** Creating directories leaves every regular file as it is. *)
Lemma makedirs_from_is_file (rest : list string) (m m' : gmap (list string) node)
    (made : list string) :
  makedirs_from m made rest = Some m' → ∀ k, is_file m' k = is_file m k.
Proof.
  revert m made. induction rest as [|n rest IH]; intros m made; cbn.
  { by intros [= ->]. }
  destruct (is_file m (made ++ [n])) eqn:E; [done|].
  intros H k. rewrite (IH _ _ H), is_file_insert_dir. by case_decide; subst.
Qed.

Lemma makedirs_from_lookup_file (rest : list string) (m m' : gmap (list string) node)
    (made : list string) (k : list string) (c : string) :
  makedirs_from m made rest = Some m' → m !! k = Some (File c) → m' !! k = Some (File c).
Proof.
  revert m made. induction rest as [|n rest IH]; intros m made; cbn.
  { by intros [= ->]. }
  destruct (is_file m (made ++ [n])) eqn:E; [done|].
  intros H Hk. apply (IH _ _ H). rewrite lookup_insert_ne; [done|].
  intros Heq. rewrite Heq in E. unfold is_file in E. by rewrite Hk in E.
Qed.

(** Whether directories can be created depends on the regular files only. *)
Lemma makedirs_from_ext (rest : list string) (m1 m2 : gmap (list string) node)
    (made : list string) :
  (∀ k, is_file m1 k = is_file m2 k) →
  is_Some (makedirs_from m1 made rest) → is_Some (makedirs_from m2 made rest).
Proof.
  revert m1 m2 made. induction rest as [|n rest IH]; intros m1 m2 made Hext; cbn.
  { eauto. }
  rewrite <- Hext. destruct (is_file m1 (made ++ [n])); [done|].
  apply IH. intros k. by rewrite !is_file_insert_dir, Hext.
Qed.

Lemma os_path_join_nonempty (a b : string) :
  Str.is_empty b = false → Str.is_empty (os_path_join a b) = false.
Proof.
  intros Hb. unfold os_path_join. repeat case_match; [done|..];
    rewrite ?is_empty_app, ?Hb, ?andb_false_r; done.
Qed.

Lemma os_makedirs_run (w : world) (p : string) :
  Str.is_empty p = false → can_makedirs w p →
  ∃ m', os_makedirs (PStr p) w = (Ret tt, set_fs m' w)
        ∧ (∀ k, is_file m' k = is_file (fs w) k)
        ∧ (∀ k c, fs w !! k = Some (File c) → m' !! k = Some (File c)).
Proof.
  intros Hp [m' Hm']. exists m'. cbn [os_makedirs]. rewrite Hp, Hm'.
  split; [done|]. split.
  - by eapply makedirs_from_is_file.
  - intros k c. by eapply makedirs_from_lookup_file.
Qed.

Lemma lookup_setdefault (key key' : string) (value : pyval) (d : gmap string pyval) :
  setdefault key value d !! key' =
    if decide (key = key') then Some (default value (d !! key)) else d !! key'.
Proof.
  unfold setdefault. destruct (d !! key) eqn:E; case_decide; subst;
    rewrite ?lookup_insert_eq, ?lookup_insert_ne; done.
Qed.

(** C9, amended: when the configuration file parses to a mapping or to a
    false value (an empty file), its directory entry is missing, false or a
    string, and the directories can be created, [load_yaml] returns settings
    that hold a non-empty directory string (the default one below the home
    directory when the entry is missing or false), and a time and a yield
    entry (true where the file has none). *)
Theorem load_yaml_settings (w : world) (text dir : string) (doc : yaml_doc)
    (m : gmap string pyval) :
  can_makedirs w (config_dir (env w)) →
  resolve (cwd w) (config_path (env w)) ≠ [] →
  fs w !! resolve (cwd w) (config_path (env w)) = Some (File text) →
  yaml_safe_load (env w) text = inr doc →
  (doc = YMapping m ∨ ∃ v, doc = YOther v ∧ truthy v = false ∧ m = ∅) →
  configured_directory (env w) m = PStr dir →
  can_makedirs w dir →
  ∃ s w',
    load_yaml w = (Ret s, w')
    ∧ s !! "directory" = Some (PStr dir)
    ∧ Str.is_empty dir = false
    ∧ (truthy (dict_get m "directory") = false → dir = default_directory (env w))
    ∧ s !! "time" = Some (default (PBool true) (m !! "time"))
    ∧ s !! "yield" = Some (default (PBool true) (m !! "yield")).
Proof.
  intros Hcfg Hk Hfile Hparse Hdoc Hdir Hmk.
  assert (Str.is_empty (config_dir (env w)) = false) as Hne1
    by by apply os_path_join_nonempty.
  assert (Str.is_empty (config_path (env w)) = false) as Hne2
    by by apply os_path_join_nonempty.
  destruct (os_makedirs_run w _ Hne1 Hcfg) as (m1 & Hrun1 & Hfiles1 & Hkeep1).
  pose proof (Hkeep1 _ _ Hfile) as Hfile1.
  (* the directory the settings end with *)
  assert (Str.is_empty dir = false
          ∧ (truthy (dict_get m "directory") = false → dir = default_directory (env w))
          ∧ ∃ m2, (if negb (truthy (dict_get m "directory")) then
                     home <- getenv home ;;
                     let recipe_directory :=
                       os_path_join (os_path_join home "Documents") "pure_recipes" in
                     ret (PStr recipe_directory,
                          <["directory" := PStr recipe_directory]> m)
                   else ret (dict_get m "directory", m)) (set_fs m1 w)
                  = (Ret (PStr dir, m2), set_fs m1 w)
                  ∧ m2 !! "directory" = Some (PStr dir)
                  ∧ m2 !! "time" = m !! "time"
                  ∧ m2 !! "yield" = m !! "yield") as (Hne3 & Hdefault & m2 & Hchoose & Hd2 & Ht2 & Hy2).
  { unfold configured_directory in Hdir.
    destruct (truthy (dict_get m "directory")) eqn:Etruthy; cbn [negb] in *.
    - rewrite Hdir in *. cbn in Etruthy. apply negb_true_iff in Etruthy.
      split; [done|]. split; [done|]. exists m. split; [done|].
      split; [|done]. unfold dict_get in Hdir. by destruct (m !! "directory"); simplify_eq/=.
    - injection Hdir as <-. split; [by apply os_path_join_nonempty|]. split; [done|].
      eexists. split; [done|]. split; [apply lookup_insert_eq|].
      by rewrite !lookup_insert_ne. }
  assert (can_makedirs (set_fs m1 w) dir) as Hmk1.
  { unfold can_makedirs in *. cbn [fs cwd set_fs].
    eapply makedirs_from_ext; [|apply Hmk]. intros k. by rewrite Hfiles1. }
  destruct (os_makedirs_run _ _ Hne3 Hmk1) as (m3 & Hrun3 & _ & _).
  assert (settings_of_doc doc = ret m) as Hsettings.
  { destruct Hdoc as [->|(v & -> & Hv & ->)]; [done|].
    cbn [settings_of_doc]. by rewrite Hv. }
  exists (setdefault "yield" (PBool true) (setdefault "time" (PBool true) m2)),
    (set_fs m3 (set_fs m1 w)).
  split; [|split; [|split; [done|split; [done|split]]]].
  - unfold load_yaml. erewrite bind_Ret by done. cbn [env].
    fold (config_dir (env w)). fold (config_path (env w)).
    erewrite bind_Ret by apply Hrun1.
    erewrite bind_Ret; last first.
    { unfold os_path_exists. cbn [fs cwd set_fs]. rewrite Hne2.
      unfold is_file at 1. by rewrite Hfile1, orb_true_r. }
    cbn [negb andb]. erewrite bind_Ret by done.
    erewrite bind_Ret by (by apply open_r_written).
    erewrite bind_Ret by (unfold yaml_load; cbn [env set_fs]; by rewrite Hparse).
    rewrite Hsettings. erewrite bind_Ret by done.
    erewrite bind_Ret by apply Hchoose. cbn iota.
    erewrite bind_Ret by apply Hrun3. done.
  - by rewrite !lookup_setdefault, Hd2.
  - by rewrite !lookup_setdefault, Ht2.
  - by rewrite !lookup_setdefault, Hy2.
Qed.

(** ** Runs in concrete worlds *)

Ltac by_computation := vm_compute; first [reflexivity | discriminate | done].

Lemma is_Some_computed {A} (x : option A) :
  match x with Some _ => true | None => false end = true → is_Some x.
Proof. by destruct x. Qed.

Ltac can_makedirs := apply is_Some_computed; vm_compute; reflexivity.

(** After a scrape failure the save prints its message and then reads the
    variable [scraper], which was never bound. *)
Lemma save_after_scrape_failure (w : world) (url : string) (s : gmap string pyval)
    (e : exn) :
  web (env w) url = inl e →
  save_recipe_to_markdown url s w =
    (Raise unbound_scraper,
     log (EvPrint (Str.nl +:+ "Could not scrape recipe, error: " +:+ exn_msg e)
            "bright_cyan bold")
       (log (EvScrape url) w)).
Proof.
  intros Hweb. unfold save_recipe_to_markdown.
  erewrite bind_Ret; last first.
  { erewrite try_except_Raise; last first.
    { unfold scrape_me, emit. erewrite bind_Raise; [done|].
      erewrite bind_Ret by done. cbn. by rewrite Hweb. }
    unfold console_print, emit. by erewrite bind_Ret by done. }
  by erewrite bind_Raise by done.
Qed.

(** C3: for a URL that cannot be scraped, [save_recipe_to_markdown] prints
    that it could not scrape the recipe and leaves the file system as it
    was, but it does not stop there: it goes on to line 81 and raises
    [UnboundLocalError]. *)
Theorem scrape_failure_raises_unbound_local :
  Demo.the_web "https://example.com/missing"
    = inl (Exn OtherError "no recipe at https://example.com/missing")
  ∧ Demo.saved_missing.1 = Raise unbound_scraper
  ∧ trace Demo.saved_missing.2 =
      [EvScrape "https://example.com/missing";
       EvPrint (Str.nl +:+
                "Could not scrape recipe, error: no recipe at https://example.com/missing")
         "bright_cyan bold"]
  ∧ fs Demo.saved_missing.2 = fs (Demo.start ∅ []).
Proof. repeat split; by_computation. Qed.

(** C6: in a batch of three URLs whose second one cannot be scraped, the
    loop goes on to the third URL and two files are written, but the one
    failure is reported twice: by the save itself, and by the loop for the
    [UnboundLocalError] that follows. *)
Theorem batch_failure_is_reported_twice :
  Demo.batch_three.1 = Ret tt
  ∧ scrapes (trace Demo.batch_three.2) =
      ["https://example.com/lemon-cake"; "https://example.com/missing";
       "https://example.com/soup"]
  ∧ writes (trace Demo.batch_three.2) = [Demo.lemon_cake_file; Demo.soup_file]
  ∧ prints (trace Demo.batch_three.2) =
      [Str.nl +:+
       "Could not scrape recipe, error: no recipe at https://example.com/missing";
       Str.nl +:+
       "Error saving recipe from URL: https://example.com/missing. Error: " +:+
       exn_msg unbound_scraper +:+ Str.nl].
Proof. repeat split; by_computation. Qed.

(** The first line of the file saved for "Lemon Cake" is not "# Lemon Cake". *)
Lemma first_line_is_not_the_scraped_title :
  Demo.saved_lemon_cake.1 = Ret "/home/cook/recipes/lemon-cake.md"
  ∧ ∃ doc, fs Demo.saved_lemon_cake.2 !! Demo.lemon_cake_file = Some (File doc)
           ∧ Str.first_line doc = "# Lemon-Cake"
           ∧ Str.first_line doc ≠ "# " +:+ title Demo.lemon_cake.
Proof.
  split; [by_computation|]. eexists. split; [by_computation|].
  split; by_computation.
Qed.

(** The title the library reads off the file saved for "Lemon Cake" is not
    "Lemon Cake". *)
Lemma library_title_is_not_the_scraped_title :
  ∃ doc,
    (open_r "/home/cook/recipes/lemon-cake.md" Demo.saved_lemon_cake.2).1 = Ret doc
    ∧ display_title doc = "Lemon-Cake"
    ∧ display_title doc ≠ Str.strip (title Demo.lemon_cake)
    ∧ display_title doc ≠ title Demo.lemon_cake.
Proof. eexists. split; [by_computation|]. repeat split; by_computation. Qed.

(** A line of two spaces in the batch file leads to a save attempt with the
    empty URL, and to two printed errors. *)
Lemma blank_line_is_attempted :
  Str.readlines Demo.urls_with_blank =
    ["https://example.com/lemon-cake" +:+ Str.nl; "  " +:+ Str.nl;
     "https://example.com/soup" +:+ Str.nl]
  ∧ Demo.batch_blank.1 = Ret tt
  ∧ scrapes (trace Demo.batch_blank.2) =
      ["https://example.com/lemon-cake"; EmptyString; "https://example.com/soup"]
  ∧ prints (trace Demo.batch_blank.2) =
      [Str.nl +:+ "Could not scrape recipe, error: no recipe at ";
       Str.nl +:+ "Error saving recipe from URL: . Error: " +:+
       exn_msg unbound_scraper +:+ Str.nl].
Proof. repeat split; by_computation. Qed.

(** A configuration file that holds a sequence makes [load_yaml] raise, and
    one whose directory is a byte string makes it return settings whose
    directory is no string. *)
Lemma load_yaml_without_directory_string :
  (load_yaml (Demo.config_world Demo.sequence_config)).1
    = Raise (Exn AttributeError "'list' object has no attribute 'get'")
  ∧ ∃ s, (load_yaml (Demo.config_world Demo.binary_config)).1 = Ret s
         ∧ s !! "directory" = Some (PBytes "/tmp/r").
Proof. split; [by_computation|]. eexists. split; by_computation. Qed.

(** ** The theorems at concrete inputs *)

Lemma saved_document_first_line_witness :
  Str.mem Str.LF (title Demo.lemon_cake) = false
  ∧ ∃ w',
      save_recipe_to_markdown "https://example.com/lemon-cake" Demo.settings
        (Demo.start ∅ [])
        = (Ret (recipe_path "/home/cook/recipes" (title Demo.lemon_cake)), w')
      ∧ fs w' !! resolve (cwd (Demo.start ∅ []))
                   (recipe_path "/home/cook/recipes" (title Demo.lemon_cake))
          = Some (File (markdown_document Demo.lemon_cake (truthy (PBool true))
                          (truthy (PBool true))))
      ∧ Str.first_line (markdown_document Demo.lemon_cake (truthy (PBool true))
                          (truthy (PBool true)))
          = "# " +:+ Str.replace " " "-" (title Demo.lemon_cake).
Proof.
  split; [by_computation|].
  apply (saved_document_first_line (Demo.start ∅ [])
           "https://example.com/lemon-cake" Demo.settings Demo.lemon_cake
           "/home/cook/recipes" (PBool true) (PBool true)); by_computation.
Defined.

Lemma saved_title_round_trip_witness :
  Str.mem Str.LF (title Demo.soup) = false
  ∧ Str.mem Str.CR (title Demo.soup) = false
  ∧ ∃ w',
      save_recipe_to_markdown "https://example.com/soup" Demo.settings
        (Demo.start ∅ [])
        = (Ret (recipe_path "/home/cook/recipes" (title Demo.soup)), w')
      ∧ open_r (recipe_path "/home/cook/recipes" (title Demo.soup)) w'
          = (Ret (markdown_document Demo.soup (truthy (PBool true))
                    (truthy (PBool true))), w')
      ∧ display_title (markdown_document Demo.soup (truthy (PBool true))
                         (truthy (PBool true)))
          = Str.strip (Str.replace " " "-" (title Demo.soup)).
Proof.
  split; [by_computation|]. split; [by_computation|].
  apply (saved_title_round_trip (Demo.start ∅ [])
           "https://example.com/soup" Demo.settings Demo.soup
           "/home/cook/recipes" (PBool true) (PBool true)); by_computation.
Defined.


Lemma save_is_idempotent_in_title_witness :
  ∃ paths w',
    save_each ["https://example.com/lemon-cake"; "https://example.com/lemon-cake"]
      Demo.settings (Demo.start ∅ []) = (Ret paths, w')
    ∧ length paths = 2
    ∧ (∀ path, path ∈ paths → path = recipe_path "/home/cook/recipes" "Lemon Cake")
    ∧ (∀ file, file ∈ drop (length (writes (trace (Demo.start ∅ []))))
                        (writes (trace w')) →
         file = resolve (cwd (Demo.start ∅ []))
                  (recipe_path "/home/cook/recipes" "Lemon Cake"))
    ∧ dom (fs w') =
        {[resolve (cwd (Demo.start ∅ []))
            (recipe_path "/home/cook/recipes" "Lemon Cake")]}
        ∪ dom (fs (Demo.start ∅ []))
    ∧ (fs (Demo.start ∅ []) !! resolve (cwd (Demo.start ∅ []))
                                 (recipe_path "/home/cook/recipes" "Lemon Cake") = None →
         size (dom (fs w')) = S (size (dom (fs (Demo.start ∅ []))))).
Proof.
  apply (save_is_idempotent_in_title
           ["https://example.com/lemon-cake"; "https://example.com/lemon-cake"]
           "Lemon Cake" "/home/cook/recipes" (PBool true) (PBool true)
           Demo.settings (Demo.start ∅ [])); try by_computation.
  intros u [->|[->|[]%elem_of_nil]%elem_of_cons]%elem_of_cons;
    by exists Demo.lemon_cake.
Defined.

Lemma every_line_is_attempted_witness :
  Demo.settings !! "directory" = Some (PStr "/home/cook/recipes")
  ∧ fs (Demo.batch_world Demo.urls_with_blank)
      !! resolve (resolve (cwd (Demo.batch_world Demo.urls_with_blank))
                    "/home/cook/recipes") "/home/cook/urls.txt"
      = Some (File Demo.urls_with_blank)
  ∧ ∃ w',
      save_list_of_recipes "/home/cook/urls.txt" Demo.settings
        (Demo.batch_world Demo.urls_with_blank) = (Ret tt, w')
      ∧ scrapes (trace w') =
          scrapes (trace (Demo.batch_world Demo.urls_with_blank)) ++
          (Str.strip <$> Str.readlines Demo.urls_with_blank).
Proof.
  split; [by_computation|]. split; [by_computation|].
  apply (every_line_is_attempted (Demo.batch_world Demo.urls_with_blank)
           "/home/cook/urls.txt" "/home/cook/recipes" Demo.urls_with_blank
           Demo.settings); by_computation.
Defined.

Lemma browse_without_markdown_files_witness :
  entries (fs Demo.notes_world) (resolve (cwd Demo.notes_world) "/home/cook/recipes")
    = ["notes.txt"]
  ∧ ∃ w',
      browse_recipes 1 Demo.settings Demo.notes_world = (Ret tt, w')
      ∧ trace w' =
          trace Demo.notes_world ++
          [EvPrint (Str.nl +:+ "No markdown files found in the specified directory." +:+
                    Str.nl) "bright_red"]
      ∧ prompts (trace w') = prompts (trace Demo.notes_world)
      ∧ fs w' = fs Demo.notes_world.
Proof.
  assert (entries (fs Demo.notes_world)
            (resolve (cwd Demo.notes_world) "/home/cook/recipes") = ["notes.txt"]) as E
    by by_computation.
  split; [exact E|].
  apply (browse_without_markdown_files Demo.notes_world Demo.settings
           "/home/cook/recipes" 0); [by_computation..|].
  intros name Hname%elem_of_entries. rewrite E in Hname.
  apply list_elem_of_singleton in Hname as ->. reflexivity.
Defined.

Lemma load_yaml_settings_witness :
  fs (Demo.config_world Demo.time_off_config)
    !! resolve (cwd (Demo.config_world Demo.time_off_config))
         (config_path (env (Demo.config_world Demo.time_off_config)))
    = Some (File Demo.time_off_config)
  ∧ yaml_safe_load (env (Demo.config_world Demo.time_off_config)) Demo.time_off_config
    = inr (YMapping {[ "time" := PBool false ]})
  ∧ ∃ s w',
      load_yaml (Demo.config_world Demo.time_off_config) = (Ret s, w')
      ∧ s !! "directory" = Some (PStr "/home/cook/Documents/pure_recipes")
      ∧ Str.is_empty "/home/cook/Documents/pure_recipes" = false
      ∧ (truthy (dict_get {[ "time" := PBool false ]} "directory") = false →
         "/home/cook/Documents/pure_recipes"
         = default_directory (env (Demo.config_world Demo.time_off_config)))
      ∧ s !! "time" =
          Some (default (PBool true)
                  (({[ "time" := PBool false ]} : gmap string pyval) !! "time"))
      ∧ s !! "yield" =
          Some (default (PBool true)
                  (({[ "time" := PBool false ]} : gmap string pyval) !! "yield")).
Proof.
  split; [by_computation|]. split; [by_computation|].
  apply (load_yaml_settings (Demo.config_world Demo.time_off_config)
           Demo.time_off_config "/home/cook/Documents/pure_recipes"
           (YMapping {[ "time" := PBool false ]}) {[ "time" := PBool false ]}).
  - can_makedirs.
  - by_computation.
  - by_computation.
  - by_computation.
  - by left.
  - by_computation.
  - can_makedirs.
Defined.

(** * Further properties *)

(** ** The shape of a file name *)

Lemma hyphenate_lower_fixed (c : ascii) :
  Str.isspace (hyphenate (Str.lower_char c)) = false
  ∧ Str.lower_char (hyphenate (Str.lower_char c)) = hyphenate (Str.lower_char c)
  ∧ hyphenate (Str.lower_char (hyphenate (Str.lower_char c)))
    = hyphenate (Str.lower_char c).
Proof. destruct c as [[] [] [] [] [] [] [] []]; done. Qed.

Lemma length_str_map (f : ascii → ascii) (s : string) :
  String.length (Str.map f s) = String.length s.
Proof. induction s as [|c s IH]; [done|]. cbn. by rewrite IH. Qed.

Lemma mem_str_map (f : ascii → ascii) (c : ascii) (s : string) :
  Str.mem c (Str.map f s) = true → ∃ c', c = f c' ∧ Str.mem c' s = true.
Proof.
  induction s as [|a s IH]; [done|]. cbn [Str.map Str.mem].
  intros [->%Ascii.eqb_eq|H]%orb_true_iff.
  - exists a. by rewrite Ascii.eqb_refl.
  - destruct (IH H) as (c' & -> & Hc'). exists c'. by rewrite Hc', orb_true_r.
Qed.

(** X1: [format_file_name] keeps the length of the title, and no character
    of its result is a whitespace character or changes under [str.lower]. *)
Theorem format_file_name_shape (t : string) (c : ascii) :
  String.length (format_file_name t) = String.length t
  ∧ (Str.mem c (format_file_name t) = true →
     Str.isspace c = false ∧ Str.lower_char c = c).
Proof.
  rewrite format_file_name_map. unfold Str.lower. rewrite str_map_map.
  split; [apply length_str_map|].
  intros (c' & -> & _)%mem_str_map. cbn.
  by destruct (hyphenate_lower_fixed c') as (? & ? & _).
Qed.

Lemma recipe_file_name_map (t : string) :
  recipe_file_name t = Str.map (λ c, hyphenate (Str.lower_char c)) t +:+ ".md".
Proof.
  unfold recipe_file_name, Str.replace. rewrite format_file_name_map.
  unfold Str.lower. rewrite !str_map_map. f_equal. apply str_map_ext.
  intros c. apply hyphenate_lower_replace.
Qed.

(** X2: formatting a name that is already formatted changes nothing, and
    titles that differ only in case, or in spaces against hyphens, get the
    same file name. *)
Theorem format_file_name_idempotent (t : string) :
  format_file_name (format_file_name t) = format_file_name t
  ∧ recipe_file_name (Str.lower t) = recipe_file_name t
  ∧ recipe_file_name (Str.replace " " "-" t) = recipe_file_name t.
Proof.
  split; [|split].
  - rewrite !format_file_name_map. unfold Str.lower. rewrite !str_map_map.
    apply str_map_ext. intros c. cbn.
    by destruct (hyphenate_lower_fixed c) as (_ & _ & ?).
  - rewrite !recipe_file_name_map. unfold Str.lower. rewrite str_map_map.
    f_equal. apply str_map_ext. intros c. cbn.
    by destruct c as [[] [] [] [] [] [] [] []].
  - rewrite !recipe_file_name_map. unfold Str.replace. rewrite str_map_map.
    f_equal. apply str_map_ext. intros c. apply hyphenate_lower_replace.
Qed.

(** ** What a computation leaves alone *)

Lemma prompts_app (t1 t2 : list event) : prompts (t1 ++ t2) = prompts t1 ++ prompts t2.
Proof. apply omap_app. Qed.

Lemma session_log (e : event) (w : world) :
  match e with EvPrompt _ _ _ => False | _ => True end →
  session (log e w) = session w.
Proof.
  intros He. unfold session. cbn. rewrite prompts_app.
  destruct e; [..|done|]; cbn; by rewrite app_nil_r.
Qed.

Lemma session_set_fs (m : gmap (list string) node) (w : world) :
  session (set_fs m w) = session w.
Proof. done. Qed.

Section keeps.
Context {A B : Type}.

Lemma keeps_session_ret (a : A) : keeps_session (ret a).
Proof. done. Qed.

Lemma keeps_session_raise (e : exn) : keeps_session (@raise A e).
Proof. done. Qed.

Lemma keeps_session_bind (m : M A) (k : A → M B) :
  keeps_session m → (∀ a, keeps_session (k a)) → keeps_session (bind m k).
Proof.
  intros Hm Hk w. unfold bind. specialize (Hm w).
  destruct (m w) as [[a|e] w']; [|done]. cbn in Hm. by rewrite Hk.
Qed.

Lemma keeps_session_try_except (m : M A) (h : exn → M A) :
  keeps_session m → (∀ e, keeps_session (h e)) → keeps_session (try_except m h).
Proof.
  intros Hm Hh w. unfold try_except. specialize (Hm w).
  destruct (m w) as [[a|e] w']; [done|]. cbn in Hm. by rewrite Hh.
Qed.

Lemma keeps_files_ret (a : A) : keeps_files (ret a).
Proof. done. Qed.

Lemma keeps_files_raise (e : exn) : keeps_files (@raise A e).
Proof. done. Qed.

Lemma keeps_files_bind (m : M A) (k : A → M B) :
  keeps_files m → (∀ a, keeps_files (k a)) → keeps_files (bind m k).
Proof.
  intros Hm Hk w. unfold bind. specialize (Hm w).
  destruct (m w) as [[a|e] w']; [|done]. cbn in Hm. by rewrite Hk.
Qed.

Lemma keeps_files_try_except (m : M A) (h : exn → M A) :
  keeps_files m → (∀ e, keeps_files (h e)) → keeps_files (try_except m h).
Proof.
  intros Hm Hh w. unfold try_except. specialize (Hm w).
  destruct (m w) as [[a|e] w']; [done|]. cbn in Hm. by rewrite Hh.
Qed.

End keeps.

Lemma keeps_session_for_each {A} (l : list A) (body : A → M unit) :
  (∀ x, keeps_session (body x)) → keeps_session (for_each l body).
Proof.
  intros Hbody. induction l as [|x l IH]; [done|].
  cbn [for_each]. apply keeps_session_bind; [apply Hbody|done].
Qed.

Lemma keeps_session_fold_each {A B} (l : list A) (acc : B) (body : B → A → M B) :
  (∀ acc x, keeps_session (body acc x)) → keeps_session (fold_each l acc body).
Proof.
  intros Hbody. revert acc. induction l as [|x l IH]; intros acc; [done|].
  cbn [fold_each]. apply keeps_session_bind; [apply Hbody|done].
Qed.

Lemma keeps_files_fold_each {A B} (l : list A) (acc : B) (body : B → A → M B) :
  (∀ acc x, keeps_files (body acc x)) → keeps_files (fold_each l acc body).
Proof.
  intros Hbody. revert acc. induction l as [|x l IH]; intros acc; [done|].
  cbn [fold_each]. apply keeps_files_bind; [apply Hbody|done].
Qed.

Lemma keeps_session_emit (e : event) :
  match e with EvPrompt _ _ _ => False | _ => True end → keeps_session (emit e).
Proof. intros He w. by apply session_log. Qed.

Lemma keeps_session_console_print (text style : string) :
  keeps_session (console_print text style).
Proof. by apply keeps_session_emit. Qed.

Lemma keeps_session_local {A} (name : string) (v : option A) :
  keeps_session (local name v).
Proof. by destruct v. Qed.

Lemma keeps_session_dict_getitem (d : gmap string pyval) (key : string) :
  keeps_session (dict_getitem d key).
Proof. unfold dict_getitem. by destruct (d !! key). Qed.

Lemma keeps_session_add_str (v : pyval) (s : string) : keeps_session (add_str v s).
Proof. by destruct v. Qed.

Lemma keeps_session_fprint (f : list string) (text : string) :
  keeps_session (fprint f text).
Proof. done. Qed.

Lemma keeps_session_open_w (p : string) : keeps_session (open_w p).
Proof.
  intros w. unfold open_w. repeat case_match; try done.
  cbn [snd]. by rewrite session_log.
Qed.

Lemma keeps_session_open_r (p : string) : keeps_session (open_r p).
Proof. intros w. unfold open_r. by repeat case_match. Qed.

Lemma keeps_session_scrape_me (url : string) : keeps_session (scrape_me url).
Proof.
  intros w. unfold scrape_me, bind, emit.
  destruct (web (env (log (EvScrape url) w)) url); cbn [snd]; by rewrite session_log.
Qed.

Lemma keeps_session_print_markdown (md : string) : keeps_session (print_markdown md).
Proof. intros w. rewrite print_markdown_run. cbn [snd]. by rewrite !session_log. Qed.

Lemma keeps_session_path_join (d : pyval) (name : string) :
  keeps_session (path_join d name).
Proof. by destruct d. Qed.

Lemma keeps_session_os_listdir (p : pyval) : keeps_session (os_listdir p).
Proof. intros w. destruct p; try done; cbn [os_listdir]; by repeat case_match. Qed.

Lemma keeps_files_console_print (text style : string) :
  keeps_files (console_print text style).
Proof. done. Qed.

Lemma keeps_files_open_r (p : string) : keeps_files (open_r p).
Proof. intros w. unfold open_r. by repeat case_match. Qed.

Lemma keeps_files_path_join (d : pyval) (name : string) : keeps_files (path_join d name).
Proof. by destruct d. Qed.

Lemma keeps_files_os_listdir (p : pyval) : keeps_files (os_listdir p).
Proof. intros w. destruct p; try done; cbn [os_listdir]; by repeat case_match. Qed.

Lemma keeps_files_print_markdown (md : string) : keeps_files (print_markdown md).
Proof. done. Qed.

Lemma keeps_files_inquirer_prompt (name message : string) (choices : list string) :
  keeps_files (inquirer_prompt name message choices).
Proof. intros w. by rewrite inquirer_prompt_run. Qed.

Lemma keeps_files_subscript (a : option string) : keeps_files (subscript a).
Proof. by destruct a. Qed.

Lemma keeps_files_dict_lookup (key : string) (d : list (string * string)) :
  keeps_files (dict_lookup key d).
Proof. induction d as [|[k v] d IH]; [done|]. cbn. by case_match. Qed.

Create HintDb keeps.

#[local] Hint Resolve keeps_session_ret keeps_session_raise
  keeps_session_console_print keeps_session_local keeps_session_dict_getitem
  keeps_session_add_str keeps_session_fprint keeps_session_open_w
  keeps_session_open_r keeps_session_scrape_me keeps_session_print_markdown
  keeps_session_path_join keeps_session_os_listdir
  keeps_files_ret keeps_files_raise keeps_files_console_print keeps_files_open_r
  keeps_files_path_join keeps_files_os_listdir keeps_files_print_markdown
  keeps_files_inquirer_prompt keeps_files_subscript keeps_files_dict_lookup : keeps.

Ltac keeps :=
  repeat first
    [ progress auto with keeps
    | apply keeps_session_bind; [|intros]
    | apply keeps_session_try_except; [|intros]
    | apply keeps_session_for_each; intros
    | apply keeps_session_fold_each; intros
    | apply keeps_files_bind; [|intros]
    | apply keeps_files_try_except; [|intros]
    | apply keeps_files_fold_each; intros
    | match goal with
      | |- keeps_session (if ?b then _ else _) => destruct b
      | |- keeps_files (if ?b then _ else _) => destruct b
      | |- keeps_session (let '(_, _) := ?x in _) => destruct x
      | |- keeps_files (match ?x with [] => _ | _ :: _ => _ end) => destruct x
      end ].

(** ** Saving *)

Lemma keeps_session_save_recipe_to_markdown (url : string) (s : gmap string pyval) :
  keeps_session (save_recipe_to_markdown url s).
Proof. unfold save_recipe_to_markdown. keeps. Qed.

(** X3: however a save ends, it leaves the working directory and the
    environment as they are, shows no prompt and takes no answer of the
    user. *)
Theorem save_keeps_session (url : string) (s : gmap string pyval) (w : world) :
  env (save_recipe_to_markdown url s w).2 = env w
  ∧ cwd (save_recipe_to_markdown url s w).2 = cwd w
  ∧ answers (save_recipe_to_markdown url s w).2 = answers w
  ∧ prompts (trace (save_recipe_to_markdown url s w).2) = prompts (trace w).
Proof.
  pose proof (keeps_session_save_recipe_to_markdown url s w) as H.
  unfold session in H. by simplify_eq.
Qed.

(** X4: a successful save prints nothing: it scrapes once, opens one file,
    replaces whatever that file held by the document of the recipe, and
    leaves every other file as it is. *)
Theorem save_touches_one_file (w : world) (url d old : string)
    (s : gmap string pyval) (r : Recipe) (y t : pyval) :
  web (env w) url = inr r →
  s !! "directory" = Some (PStr d) →
  s !! "yield" = Some y →
  s !! "time" = Some t →
  fs w !! resolve (cwd w) (recipe_path d (title r)) = Some (File old) →
  resolve (cwd w) (recipe_path d (title r)) ≠ [] →
  is_dir (fs w) (removelast (resolve (cwd w) (recipe_path d (title r)))) = true →
  ∃ w',
    save_recipe_to_markdown url s w = (Ret (recipe_path d (title r)), w')
    ∧ fs w' !! resolve (cwd w) (recipe_path d (title r))
        = Some (File (markdown_document r (truthy y) (truthy t)))
    ∧ (∀ k', k' ≠ resolve (cwd w) (recipe_path d (title r)) →
             fs w' !! k' = fs w !! k')
    ∧ trace w' =
        trace w ++ [EvScrape url; EvWrite (resolve (cwd w) (recipe_path d (title r)))].
Proof.
  intros Hweb Hd Hy Ht Hold Hne Hparent. eexists. split.
  - apply save_recipe_to_markdown_ok; try done.
    destruct (resolve (cwd w) (recipe_path d (title r))); [done|].
    unfold is_dir. by rewrite Hold.
  - split; [apply lookup_insert_eq|]. split.
    + intros k' Hk'. cbn. by rewrite lookup_insert_ne.
    + cbn. by rewrite <- (assoc_L (++)).
Qed.

Lemma scrape_step_ok (w : world) (url : string) (r : Recipe) :
  web (env w) url = inr r →
  try_except (r <- scrape_me url ;; ret (Some r))
    (λ e, console_print (Str.nl +:+ "Could not scrape recipe, error: " +:+ exn_msg e)
            "bright_cyan bold" ;; ret None) w
  = (Ret (Some r), log (EvScrape url) w).
Proof.
  intros Hweb. apply try_except_Ret. unfold scrape_me, emit.
  erewrite bind_Ret; last first.
  { erewrite bind_Ret by done. cbn. by rewrite Hweb. }
  done.
Qed.

(** X5: when the settings hold no directory string (the key is missing, or
    its value is [None] or of another type), a save whose scrape succeeded
    raises [TypeError] at line 82; it has printed nothing and touched no
    file. *)
Theorem save_without_directory (w : world) (url : string) (s : gmap string pyval)
    (r : Recipe) :
  web (env w) url = inr r →
  (∀ d, dict_get s "directory" ≠ PStr d) →
  ∃ e,
    save_recipe_to_markdown url s w = (Raise e, log (EvScrape url) w)
    ∧ exn_cls e = TypeError.
Proof.
  intros Hweb Hd. unfold save_recipe_to_markdown.
  erewrite bind_Ret by (by apply scrape_step_ok).
  cbn [local]. erewrite bind_Ret by done.
  destruct (dict_get s "directory") as [| | |d| |] eqn:E;
    try (eexists; split; [by erewrite bind_Raise by done|done]).
  by destruct (Hd d).
Qed.

(** X6: the file is opened before the settings are read: when the key
    "yield" is missing, the save raises [KeyError] and leaves behind a file
    that holds the header line only. *)
Theorem save_with_missing_key (w : world) (url d : string) (s : gmap string pyval)
    (r : Recipe) :
  web (env w) url = inr r →
  s !! "directory" = Some (PStr d) →
  s !! "yield" = None →
  is_dir (fs w) (resolve (cwd w) (recipe_path d (title r))) = false →
  is_dir (fs w) (removelast (resolve (cwd w) (recipe_path d (title r)))) = true →
  ∃ w',
    save_recipe_to_markdown url s w = (Raise (Exn KeyError "'yield'"), w')
    ∧ fs w' !! resolve (cwd w) (recipe_path d (title r))
      = Some (File (("# " +:+ Str.replace " " "-" (title r)) +:+ Str.nl))
    ∧ writes (trace w') =
        writes (trace w) ++ [resolve (cwd w) (recipe_path d (title r))].
Proof.
  intros Hweb Hd Hy Hk Hparent.
  set (p := recipe_path d (title r)) in *. set (k := resolve (cwd w) p) in *.
  unfold save_recipe_to_markdown.
  erewrite bind_Ret by (by apply scrape_step_ok).
  rewrite (dict_get_Some _ _ _ Hd). cbn [local add_str].
  erewrite bind_Ret by done. erewrite bind_Ret by done.
  replace (((d +:+ "/") +:+ format_file_name (Str.replace " " "-" (title r))) +:+ ".md")
    with p by (unfold p, recipe_path, recipe_file_name; by rewrite !str_app_assoc).
  erewrite bind_Ret; last first.
  { unfold open_w. cbn [cwd fs log]. fold k.
    replace (Str.is_empty p) with false by (symmetry; apply recipe_path_nonempty).
    by rewrite Hk, Hparent. }
  erewrite bind_Ret by (by apply fprint_at).
  unfold dict_getitem at 1. rewrite Hy.
  eexists. split; [by erewrite bind_Raise by done|]. cbn.
  split; [apply lookup_insert_eq|].
  rewrite !writes_app. cbn. by rewrite app_nil_r.
Qed.

(** ** Viewing *)

(** X7: [view_recipe] lets no exception out: whatever the scraper, the
    file system or the user do, it returns. *)
Theorem view_recipe_never_raises (url : string) (s : gmap string pyval)
    (prompt_save : bool) (w : world) :
  (view_recipe url s prompt_save w).1 = Ret tt.
Proof.
  unfold view_recipe, try_except at 1.
  match goal with |- (let (_, _) := ?m w in _).1 = _ => destruct (m w) as [[[]|e] w'] end;
    [done|].
  by repeat case_match.
Qed.

(** X8: with [prompt_save] false, [view_recipe] shows no prompt, takes no
    answer and leaves the working directory alone. *)
Theorem view_recipe_without_prompt (url : string) (s : gmap string pyval) :
  keeps_session (view_recipe url s false).
Proof.
  unfold view_recipe. apply keeps_session_try_except; [|intros; keeps].
  apply keeps_session_bind; [apply keeps_session_save_recipe_to_markdown|].
  intros. keeps.
Qed.

(** X9: when the user chooses "Save this recipe" after a successful view,
    the recipe is scraped and its file written a second time, and the
    success message is printed. *)
Theorem view_recipe_saves_twice (w : world) (url d : string) (s : gmap string pyval)
    (r : Recipe) (y t : pyval) (rest : list (option string)) :
  web (env w) url = inr r →
  s !! "directory" = Some (PStr d) →
  s !! "yield" = Some y →
  s !! "time" = Some t →
  is_dir (fs w) (resolve (cwd w) (recipe_path d (title r))) = false →
  is_dir (fs w) (removelast (resolve (cwd w) (recipe_path d (title r)))) = true →
  answers w = Some "Save this recipe" :: rest →
  ∃ w',
    view_recipe url s true w = (Ret tt, w')
    ∧ scrapes (trace w') = scrapes (trace w) ++ [url; url]
    ∧ writes (trace w') =
        writes (trace w) ++
        [resolve (cwd w) (recipe_path d (title r));
         resolve (cwd w) (recipe_path d (title r))]
    ∧ prints (trace w') =
        prints (trace w) ++ [Str.nl +:+ "Recipe saved successfully." +:+ Str.nl]
    ∧ answers w' = rest
    ∧ fs w' !! resolve (cwd w) (recipe_path d (title r))
        = Some (File (markdown_document r (truthy y) (truthy t))).
Proof.
  intros Hweb Hd Hy Ht Hk Hparent Ha.
  pose proof (is_dir_nonempty _ _ Hk) as Hne.
  unfold view_recipe, try_except at 1.
  erewrite bind_Ret by (by apply save_recipe_to_markdown_ok).
  rewrite recipe_path_nonempty.
  erewrite bind_Ret; last first.
  { apply open_r_written; [apply recipe_path_nonempty|done|apply lookup_insert_eq]. }
  erewrite bind_Ret by apply print_markdown_run.
  erewrite bind_Ret by apply inquirer_prompt_run.
  cbn [answers log set_fs env]. rewrite Ha. cbn [hd tl].
  erewrite bind_Ret by done. cbn [String.eqb Ascii.eqb Bool.eqb].
  unfold try_except.
  erewrite bind_Ret by (by apply (save_again w url s r d y t)).
  cbn. eexists. split; [done|].
  cbn [trace log set_fs set_answers answers fs].
  unfold scrapes, writes, prints. rewrite !omap_app. cbn.
  rewrite !app_nil_r, <- !(assoc_L (++)). cbn.
  repeat split; try done. apply lookup_insert_eq.
Qed.

(** ** The entry point *)

(** X10: for arguments that [parse_arguments] has accepted, [main] raises
    exactly when loading the settings raises, and then with the same
    exception: [load_yaml] is called outside the [try]; once the settings
    are loaded, every exception of the chosen operation is caught and [main]
    returns. *)
Theorem main_raises_only_while_loading (depth : nat) (operations url : string)
    (w : world) :
  match load_yaml w with
  | (Raise e, w1) => main depth operations url w = (Raise e, w1)
  | (Ret _, _) => (main depth operations url w).1 = Ret tt
  end.
Proof.
  unfold main, bind. destruct (load_yaml w) as [[s|e] w1]; [|done].
  unfold try_except.
  match goal with |- (let (_, _) := ?m w1 in _).1 = _ =>
    destruct (m w1) as [[[]|e] w2] end; done.
Qed.

(** ** The batch operation, continued *)

(** X11: when the storage directory of the settings does not exist, the
    batch operation prints "Directory not found." and raises the
    [FileNotFoundError] again; it has not opened the batch file and has made
    no save attempt. *)
Theorem save_list_directory_not_found (w : world) (url d : string)
    (s : gmap string pyval) :
  s !! "directory" = Some (PStr d) →
  Str.is_empty d = false →
  is_dir (fs w) (resolve (cwd w) d) = false →
  is_file (fs w) (resolve (cwd w) d) = false →
  save_list_of_recipes url s w =
    (Raise (os_error FileNotFoundError d),
     log (EvPrint (Str.nl +:+ "Directory not found. Please check the settings." +:+
                   Str.nl) "bright_red") w).
Proof.
  intros Hd Hne Hdir Hfile. unfold save_list_of_recipes.
  erewrite bind_Raise; [done|].
  erewrite try_except_Raise; last first.
  { unfold dict_getitem. rewrite Hd. erewrite bind_Ret by done.
    unfold os_chdir. by rewrite Hne, Hdir, Hfile. }
  cbn [exn_cls os_error is_FileNotFoundError].
  by erewrite bind_Ret by done.
Qed.

(** X12: the batch file is looked up after the change into the storage
    directory.  When there is no such file, the operation prints "URL file
    not found." and raises the [FileNotFoundError] again, without any save
    attempt, and the process stays in the storage directory. *)
Theorem save_list_url_file_not_found (w : world) (url d : string)
    (s : gmap string pyval) :
  s !! "directory" = Some (PStr d) →
  Str.is_empty d = false →
  is_dir (fs w) (resolve (cwd w) d) = true →
  is_dir (fs w) (resolve (resolve (cwd w) d) url) = false →
  fs w !! resolve (resolve (cwd w) d) url = None →
  save_list_of_recipes url s w =
    (Raise (os_error FileNotFoundError url),
     log (EvPrint (Str.nl +:+ "URL file not found. Please provide a valid file path." +:+
                   Str.nl) "bright_red")
       (set_cwd (resolve (cwd w) d) w)).
Proof.
  intros Hd Hne Hdir Hk Hnone. unfold save_list_of_recipes.
  erewrite bind_Ret; last first.
  { apply try_except_Ret. unfold dict_getitem. rewrite Hd.
    erewrite bind_Ret by done. unfold os_chdir. by rewrite Hne, Hdir. }
  erewrite try_except_Raise; last first.
  { erewrite bind_Raise; [done|]. unfold open_r. cbn [cwd fs set_cwd].
    rewrite Hk, Hnone. by destruct (Str.is_empty url). }
  cbn [exn_cls os_error is_FileNotFoundError].
  by erewrite bind_Ret by done.
Qed.

Lemma keeps_session_batch_line (s : gmap string pyval) (line : string) :
  keeps_session
    (let single_url := single_url_of line in
     try_except (save_recipe_to_markdown single_url s ;; ret tt)
       (λ e, console_print
               (Str.nl +:+ "Error saving recipe from URL: " +:+ single_url +:+
                ". Error: " +:+ exn_msg e +:+ Str.nl) "bright_red")).
Proof.
  cbn zeta. apply keeps_session_try_except; [|intros; keeps].
  apply keeps_session_bind; [apply keeps_session_save_recipe_to_markdown|].
  intros. keeps.
Qed.

(** X13: a batch run that finds its directory and its file returns with the
    process in the storage directory; it has shown no prompt and taken no
    answer. *)
Theorem save_list_stays_in_storage_directory (w : world) (url d text : string)
    (s : gmap string pyval) :
  s !! "directory" = Some (PStr d) →
  Str.is_empty d = false →
  is_dir (fs w) (resolve (cwd w) d) = true →
  Str.is_empty url = false →
  resolve (resolve (cwd w) d) url ≠ [] →
  fs w !! resolve (resolve (cwd w) d) url = Some (File text) →
  ∃ w',
    save_list_of_recipes url s w = (Ret tt, w')
    ∧ cwd w' = resolve (cwd w) d
    ∧ answers w' = answers w
    ∧ prompts (trace w') = prompts (trace w).
Proof.
  intros Hd Hne Hdir Hurl Hk Hfile. unfold save_list_of_recipes.
  erewrite bind_Ret; last first.
  { apply try_except_Ret. unfold dict_getitem. rewrite Hd.
    erewrite bind_Ret by done. unfold os_chdir. by rewrite Hne, Hdir. }
  destruct (batch_loop_run s (Str.readlines text) (set_cwd (resolve (cwd w) d) w))
    as (w' & Hloop & _).
  exists w'. split.
  { apply try_except_Ret. erewrite bind_Ret by (by apply open_r_written). apply Hloop. }
  pose proof (keeps_session_for_each (Str.readlines text) _
                (keeps_session_batch_line s) (set_cwd (resolve (cwd w) d) w)) as H.
  rewrite Hloop in H. unfold session in H. cbn in H. by simplify_eq.
Qed.

(** ** Paths *)

Lemma split_slash_nonempty (s : string) : split_slash s ≠ [].
Proof. destruct s as [|c s]; [done|]. cbn. by repeat case_match. Qed.

Lemma split_slash_app (a b : string) :
  split_slash (a +:+ "/" +:+ b) = split_slash a ++ split_slash b.
Proof.
  induction a as [|c a IH]; [done|].
  rewrite str_app_cons. cbn [split_slash]. rewrite IH.
  destruct (Ascii.eqb c "/"); [done|].
  pose proof (split_slash_nonempty a). by destruct (split_slash a).
Qed.

Lemma split_slash_simple (name : string) :
  Str.mem "/" name = false → split_slash name = [name].
Proof.
  induction name as [|c name IH]; [done|]. cbn [Str.mem split_slash].
  rewrite Ascii.eqb_sym. intros [-> H]%orb_false_iff. by rewrite IH.
Qed.

Lemma walk_app (base l1 l2 : list string) :
  walk base (l1 ++ l2) = walk (walk base l1) l2.
Proof. apply foldl_app. Qed.

Lemma simple_name_inv (name : string) :
  simple_name name = true →
  Str.is_empty name = false ∧ String.eqb name "." = false
  ∧ String.eqb name ".." = false ∧ Str.mem "/" name = false.
Proof.
  unfold simple_name. rewrite !andb_true_iff, !negb_true_iff.
  by intros [[[? ?] ?] ?].
Qed.

Lemma walk_simple (base : list string) (name : string) :
  simple_name name = true → walk base [name] = base ++ [name].
Proof. intros (H1 & H2 & H3 & _)%simple_name_inv. cbn. by rewrite H1, H2, H3. Qed.

Lemma endswith_go_inv (n : nat) (s suffix : string) :
  Str.endswith_go s suffix n = true → ∃ pre, s = pre +:+ suffix.
Proof.
  revert s. induction n as [|n IH]; intros s.
  - assert (Str.endswith_go s suffix 0 = String.eqb s suffix) as -> by by destruct s.
    intros ->%String.eqb_eq. by exists EmptyString.
  - destruct s as [|c s]; [done|]. cbn. intros (pre & ->)%IH. by exists (String c pre).
Qed.

Lemma endswith_inv (s suffix : string) :
  Str.endswith s suffix = true → ∃ pre, s = pre +:+ suffix.
Proof. apply endswith_go_inv. Qed.

Lemma startswith_cons (c : ascii) (s : string) :
  Str.startswith (String c s) "/" = Ascii.eqb c "/".
Proof.
  unfold Str.startswith. cbn [String.prefix].
  destruct (ascii_dec "/" c) as [<-|Hc].
  - by destruct s.
  - symmetry. by apply Ascii.eqb_neq.
Qed.

Lemma startswith_app (a b : string) :
  Str.is_empty a = false → Str.startswith (a +:+ b) "/" = Str.startswith a "/".
Proof.
  destruct a as [|c a]; [done|]. intros _.
  by rewrite str_app_cons, !startswith_cons.
Qed.

Lemma simple_name_not_absolute (name : string) :
  simple_name name = true → Str.startswith name "/" = false.
Proof.
  intros (H1 & _ & _ & H4)%simple_name_inv. destruct name as [|c name]; [done|].
  cbn in H4. apply orb_false_iff in H4 as [Hc _].
  by rewrite startswith_cons, Ascii.eqb_sym.
Qed.

(** Joining a simple name to a directory names the entry of that name. *)
Lemma resolve_join (wd : list string) (d name : string) :
  simple_name name = true →
  resolve wd (os_path_join d name) = resolve wd d ++ [name].
Proof.
  intros Hname. pose proof (simple_name_not_absolute _ Hname) as Hrel.
  destruct (simple_name_inv _ Hname) as (Hne & _ & _ & Hslash).
  unfold os_path_join. rewrite Hrel.
  destruct d as [|c d].
  { cbn [Str.is_empty orb]. rewrite str_app_nil_l. unfold resolve. rewrite Hrel.
    rewrite split_slash_simple by done. by rewrite walk_simple. }
  cbn [Str.is_empty orb]. set (D := String c d).
  destruct (Str.endswith D "/") eqn:E.
  - apply endswith_inv in E as [pre E]. rewrite E.
    rewrite str_app_assoc. unfold resolve.
    replace (Str.startswith (pre +:+ "/" +:+ name) "/")
      with (Str.startswith (pre +:+ "/") "/"); last first.
    { destruct pre as [|c' pre].
      - rewrite !str_app_nil_l.
        change ("/" +:+ name) with (String "/" name). by rewrite !startswith_cons.
      - rewrite !(startswith_app (String c' pre)); done. }
    change (split_slash (pre +:+ "/"))
      with (split_slash (pre +:+ "/" +:+ EmptyString)).
    rewrite !split_slash_app, !walk_app, (split_slash_simple name) by done.
    by rewrite walk_simple by done.
  - unfold resolve. rewrite split_slash_app, walk_app, (split_slash_simple name) by done.
    rewrite walk_simple by done. by rewrite (startswith_app D).
Qed.

(** ** The dictionary of titles *)

Lemma dict_set_keys (key value k : string) (d : list (string * string)) :
  k ∈ (dict_set key value d).*1 ↔ k = key ∨ k ∈ d.*1.
Proof.
  induction d as [|[k' v'] d IH]; cbn.
  { rewrite list_elem_of_singleton, elem_of_nil. tauto. }
  destruct (String.eqb_spec k' key) as [->|Hne]; cbn;
    rewrite !elem_of_cons, ?IH; tauto.
Qed.

Lemma dict_set_NoDup (key value : string) (d : list (string * string)) :
  NoDup d.*1 → NoDup (dict_set key value d).*1.
Proof.
  induction d as [|[k' v'] d IH]; cbn.
  { intros _. apply NoDup_singleton. }
  rewrite !NoDup_cons. intros [Hk' Hd].
  destruct (String.eqb_spec k' key) as [->|Hne]; cbn; rewrite ?NoDup_cons.
  - done.
  - split; [|by apply IH]. rewrite dict_set_keys. by intros [->|?].
Qed.

Lemma dict_set_elem (key value k v : string) (d : list (string * string)) :
  (k, v) ∈ dict_set key value d → (k = key ∧ v = value) ∨ (k, v) ∈ d.
Proof.
  induction d as [|[k' v'] d IH]; cbn.
  { intros [= -> ->]%list_elem_of_singleton. by left. }
  destruct (String.eqb_spec k' key) as [->|Hne]; rewrite !elem_of_cons.
  - intros [[= -> ->]|?]; [by left|right; by right].
  - intros [[= -> ->]|H]; [right; by left|].
    destruct (IH H) as [?|?]; [by left|right; by right].
Qed.

Lemma dict_lookup_elem (key : string) (d : list (string * string)) :
  key ∈ d.*1 → ∃ v, dict_lookup key d = ret v ∧ (key, v) ∈ d.
Proof.
  induction d as [|[k' v'] d IH]; cbn; [by intros ?%elem_of_nil|].
  destruct (String.eqb_spec k' key) as [->|Hne].
  - intros _. exists v'. split; [done|]. by left.
  - intros [->|H]%elem_of_cons; [done|].
    destruct (IH H) as (v & Hv & Hin). exists v. split; [done|]. by right.
Qed.

(** ** Scanning the storage directory *)

Lemma open_r_titled (w : world) (d t path c : string) :
  plain_directory (fs w) (resolve (cwd w) d) →
  titled_file (fs w) (resolve (cwd w) d) d t path c →
  open_r path w = (Ret c, w).
Proof.
  intros Hplain (name & Hfile & _ & _ & ->).
  destruct (Hplain name) as [Hsimple _]; [by rewrite Hfile|].
  destruct (simple_name_inv _ Hsimple) as (Hne & _).
  apply open_r_written.
  - by apply os_path_join_nonempty.
  - rewrite resolve_join by done. by destruct (resolve (cwd w) d).
  - by rewrite resolve_join.
Qed.

Lemma scan_directory_run (w : world) (d : string) (names : list string)
    (acc : list (string * string)) :
  plain_directory (fs w) (resolve (cwd w) d) →
  (∀ name, name ∈ names → is_Some (fs w !! (resolve (cwd w) d ++ [name]))) →
  NoDup acc.*1 →
  (∀ t path, (t, path) ∈ acc → ∃ c, titled_file (fs w) (resolve (cwd w) d) d t path c) →
  ∃ title_to_file,
    fold_each names acc
      (λ title_to_file filename,
         file_path <- path_join (PStr d) filename ;;
         if Str.endswith filename ".md" then
           f <- open_r file_path ;;
           let title := display_title f in
           ret (dict_set title file_path title_to_file)
         else ret title_to_file) w = (Ret title_to_file, w)
    ∧ NoDup title_to_file.*1
    ∧ (∀ t path, (t, path) ∈ title_to_file →
                 ∃ c, titled_file (fs w) (resolve (cwd w) d) d t path c)
    ∧ (∀ t, t ∈ title_to_file.*1 ↔
            t ∈ acc.*1
            ∨ ∃ name c, name ∈ names
                        ∧ fs w !! (resolve (cwd w) d ++ [name]) = Some (File c)
                        ∧ Str.endswith name ".md" = true
                        ∧ display_title c = t).
Proof.
  intros Hplain. revert acc. induction names as [|name names IH]; intros acc Hnames Hnd Hacc.
  { exists acc. split; [done|]. split; [done|]. split; [done|].
    intros t. split; [by left|]. intros [?|(? & ? & []%elem_of_nil & _)]. done. }
  destruct (Hplain name) as [Hsimple Hmd]; [apply Hnames; by left|].
  cbn [fold_each path_join]. erewrite bind_Ret; last first.
  { erewrite bind_Ret by done. instantiate (1 := w).
    instantiate (1 := if Str.endswith name ".md"
                      then dict_set
                             (display_title
                                match fs w !! (resolve (cwd w) d ++ [name]) with
                                | Some (File c) => c
                                | _ => EmptyString
                                end) (os_path_join d name) acc
                      else acc).
    destruct (Str.endswith name ".md") eqn:Emd; [|done].
    specialize (Hmd eq_refl). unfold is_file in Hmd.
    destruct (fs w !! (resolve (cwd w) d ++ [name])) as [[|c]|] eqn:Efile; try done.
    erewrite bind_Ret; [done|].
    apply (open_r_titled w d (display_title c)); [done|]. by exists name. }
  destruct (Str.endswith name ".md") eqn:Emd.
  - specialize (Hmd eq_refl). unfold is_file in Hmd.
    destruct (fs w !! (resolve (cwd w) d ++ [name])) as [[|c]|] eqn:Efile; try done.
    destruct (IH (dict_set (display_title c) (os_path_join d name) acc))
      as (t2f & Hrun & Hnd' & Hinv & Hkeys).
    + intros n Hn. apply Hnames. by right.
    + by apply dict_set_NoDup.
    + intros t path [[-> ->]|Hin]%dict_set_elem; [|by apply Hacc].
      exists c. by exists name.
    + exists t2f. split; [done|]. split; [done|]. split; [done|].
      intros t. rewrite Hkeys, dict_set_keys. split.
      * intros [[->|?]|(n & c' & Hn & ?)]; [right|by left|right].
        -- exists name, c. split; [by left|done].
        -- exists n, c'. split; [by right|done].
      * intros [?|(n & c' & [->|Hn]%elem_of_cons & Hf & He & Ht)].
        -- left. by right.
        -- left. left. rewrite Efile in Hf. by simplify_eq.
        -- right. by exists n, c'.
  - destruct (IH acc) as (t2f & Hrun & Hnd' & Hinv & Hkeys); try done.
    { intros n Hn. apply Hnames. by right. }
    exists t2f. split; [done|]. split; [done|]. split; [done|].
    intros t. rewrite Hkeys. split.
    + intros [?|(n & c' & Hn & ?)]; [by left|right].
      exists n, c'. split; [by right|done].
    + intros [?|(n & c' & [->|Hn]%elem_of_cons & Hf & He & Ht)].
      * by left.
      * by rewrite Emd in He.
      * right. by exists n, c'.
Qed.

(** ** Browsing, continued *)

Section browsing.
Variables (w : world) (s : gmap string pyval) (d : string).
Hypothesis Hd : s !! "directory" = Some (PStr d).
Hypothesis Hne : Str.is_empty d = false.
Hypothesis Hdir : is_dir (fs w) (resolve (cwd w) d) = true.
Hypothesis Hplain : plain_directory (fs w) (resolve (cwd w) d).

(** What the loop of lines 229 to 235 collects. *)
Lemma scan_storage_directory :
  ∃ title_to_file,
    scan_directory (PStr d) (entries (fs w) (resolve (cwd w) d)) w
      = (Ret title_to_file, w)
    ∧ NoDup title_to_file.*1
    ∧ (∀ t path, (t, path) ∈ title_to_file →
                 ∃ c, titled_file (fs w) (resolve (cwd w) d) d t path c)
    ∧ (∀ t, t ∈ title_to_file.*1 ↔
            ∃ path c, titled_file (fs w) (resolve (cwd w) d) d t path c).
Proof using Hplain.
  destruct (scan_directory_run w d (entries (fs w) (resolve (cwd w) d)) [])
    as (t2f & Hrun & Hnd & Hinv & Hkeys); try done.
  - intros name. by rewrite elem_of_entries.
  - apply NoDup_nil_2.
  - by intros t path ?%elem_of_nil.
  - exists t2f. split; [done|]. split; [done|]. split; [done|].
    intros t. rewrite Hkeys. split.
    + intros [[]%elem_of_nil|(name & c & _ & Hf & He & Ht)].
      exists (os_path_join d name), c. by exists name.
    + intros (path & c & name & Hf & He & Ht & _). right.
      exists name, c. split; [|done]. apply elem_of_entries. by rewrite Hf.
Qed.

(** The run of [browse_recipes] up to the answer to the first prompt. *)
Lemma browse_recipes_menu (depth : nat) (t0 path0 c0 : string) :
  titled_file (fs w) (resolve (cwd w) d) d t0 path0 c0 →
  ∃ title_to_file,
    NoDup title_to_file.*1
    ∧ (∀ t path, (t, path) ∈ title_to_file →
                 ∃ c, titled_file (fs w) (resolve (cwd w) d) d t path c)
    ∧ (∀ t, t ∈ title_to_file.*1 ↔
            ∃ path c, titled_file (fs w) (resolve (cwd w) d) d t path c)
    ∧ browse_recipes (S depth) s w =
        (selected_title <- subscript (hd None (answers w)) ;;
         if String.eqb selected_title "Quit" then ret tt
         else
           file_path <- dict_lookup selected_title title_to_file ;;
           try_except
             (f <- open_r file_path ;;
              print_markdown (read_text f))
             (λ e, console_print
                     (Str.nl +:+ "Error reading the file: " +:+ exn_msg e +:+ Str.nl)
                     "bright_red") ;;
           back_to_menu_answer <-
             inquirer_prompt "back_to_menu" "What would you like to do next?"
               ["Back to menu"; "Quit"] ;;
           choice <- subscript back_to_menu_answer ;;
           if String.eqb choice "Quit" then ret tt
           else if String.eqb choice "Back to menu" then
             browse_recipes depth s
           else ret tt)
          (set_answers (tl (answers w))
             (log (EvPrompt "recipe" "Select a recipe to view"
                     (title_to_file.*1 ++ ["Quit"])) w)).
Proof using All.
  intros Htitled.
  destruct scan_storage_directory as (t2f & Hrun & Hnd & Hinv & Hkeys).
  exists t2f. split; [done|]. split; [done|]. split; [done|].
  cbn [browse_recipes]. rewrite (dict_get_Some _ _ _ Hd). cbn [truthy].
  rewrite Hne. cbn [negb].
  erewrite bind_Ret; last first.
  { unfold os_listdir. by rewrite Hne, Hdir. }
  erewrite bind_Ret by apply Hrun.
  destruct t2f as [|entry t2f].
  { assert (t0 ∈ ([] : list (string * string)).*1) as []%elem_of_nil.
    apply Hkeys. by exists path0, c0. }
  by erewrite bind_Ret by apply inquirer_prompt_run.
Qed.

(** X14: when the storage directory holds Markdown files, the menu of
    [browse_recipes] offers the display titles of exactly these files, each
    title once, followed by "Quit"; when the user selects "Quit", the call
    returns without rendering anything. *)
Theorem browse_menu_and_quit (depth : nat) (t0 path0 c0 : string)
    (rest : list (option string)) :
  titled_file (fs w) (resolve (cwd w) d) d t0 path0 c0 →
  answers w = Some "Quit" :: rest →
  ∃ titles,
    NoDup titles
    ∧ (∀ t, t ∈ titles ↔ ∃ path c, titled_file (fs w) (resolve (cwd w) d) d t path c)
    ∧ browse_recipes (S depth) s w =
        (Ret tt,
         set_answers rest
           (log (EvPrompt "recipe" "Select a recipe to view" (titles ++ ["Quit"])) w)).
Proof using All.
  intros Htitled Ha.
  destruct (browse_recipes_menu depth _ _ _ Htitled) as (t2f & Hnd & _ & Hkeys & ->).
  exists t2f.*1. split; [done|]. split; [done|]. by rewrite Ha.
Qed.

(** The run of [browse_recipes] up to the answer to the second prompt. *)
Lemma browse_recipes_selection (depth : nat) (t path0 c0 : string)
    (answer : option string) (rest : list (option string)) :
  titled_file (fs w) (resolve (cwd w) d) d t path0 c0 →
  t ≠ "Quit" →
  answers w = Some t :: answer :: rest →
  ∃ titles path c,
    titled_file (fs w) (resolve (cwd w) d) d t path c
    ∧ browse_recipes (S depth) s w =
        (choice <- subscript answer ;;
         if String.eqb choice "Quit" then ret tt
         else if String.eqb choice "Back to menu" then browse_recipes depth s
         else ret tt)
          (after_selection titles (read_text c) rest w).
Proof using All.
  intros Htitled Hquit Ha.
  destruct (browse_recipes_menu depth _ _ _ Htitled) as (t2f & Hnd & Hinv & Hkeys & ->).
  rewrite Ha. cbn [hd tl subscript]. erewrite bind_Ret by done.
  rewrite (proj2 (String.eqb_neq t "Quit")) by done.
  destruct (dict_lookup_elem t t2f) as (path & -> & Hin).
  { apply Hkeys. by exists path0, c0. }
  destruct (Hinv _ _ Hin) as [c Hc].
  exists t2f.*1, path, c. split; [done|].
  erewrite bind_Ret by done.
  erewrite bind_Ret; last first.
  { apply try_except_Ret. erewrite bind_Ret; [apply print_markdown_run|].
    by apply (open_r_titled _ d t path c). }
  by erewrite bind_Ret by apply inquirer_prompt_run.
Qed.

(** X15: selecting a title of the menu renders a Markdown file of the
    storage directory whose display title it is, and asks what to do next;
    after "Quit" the call returns. *)
Theorem browse_view_then_quit (depth : nat) (t path0 c0 : string)
    (rest : list (option string)) :
  titled_file (fs w) (resolve (cwd w) d) d t path0 c0 →
  t ≠ "Quit" →
  answers w = Some t :: Some "Quit" :: rest →
  ∃ titles path c,
    titled_file (fs w) (resolve (cwd w) d) d t path c
    ∧ browse_recipes (S depth) s w =
        (Ret tt, after_selection titles (read_text c) rest w).
Proof using All.
  intros Htitled Hquit Ha.
  destruct (browse_recipes_selection depth _ _ _ _ _ Htitled Hquit Ha)
    as (titles & path & c & Hc & ->).
  by exists titles, path, c.
Qed.

End browsing.

(** X16: every "Back to menu" makes [browse_recipes] call itself once more:
    a user who views a recipe and goes back to the menu as often as the
    interpreter allows nested calls ends in a [RecursionError]. *)
Theorem browse_recursion_limit (depth : nat) (w : world) (s : gmap string pyval)
    (d t path0 c0 : string) (rest : list (option string)) :
  s !! "directory" = Some (PStr d) →
  Str.is_empty d = false →
  is_dir (fs w) (resolve (cwd w) d) = true →
  plain_directory (fs w) (resolve (cwd w) d) →
  titled_file (fs w) (resolve (cwd w) d) d t path0 c0 →
  t ≠ "Quit" →
  answers w = concat (replicate depth [Some t; Some "Back to menu"]) ++ rest →
  ∃ w',
    browse_recipes depth s w
      = (Raise (Exn RecursionError "maximum recursion depth exceeded"), w')
    ∧ answers w' = rest
    ∧ length (prompts (trace w')) = length (prompts (trace w)) + 2 * depth
    ∧ fs w' = fs w.
Proof.
  intros Hd Hne. revert w. induction depth as [|depth IH];
    intros w Hdir Hplain Htitled Hquit Ha.
  { exists w. cbn in *. split; [done|]. split; [done|]. split; [lia|done]. }
  cbn [replicate concat] in Ha. rewrite <- (assoc_L (++)) in Ha. cbn [app] in Ha.
  destruct (browse_recipes_selection w s d Hd Hne Hdir Hplain depth _ _ _ _ _
              Htitled Hquit Ha) as (titles & path & c & Hc & ->).
  cbn [subscript]. erewrite bind_Ret by done. cbn [String.eqb Ascii.eqb Bool.eqb].
  destruct (IH (after_selection titles (read_text c)
                  (concat (replicate depth [Some t; Some "Back to menu"]) ++ rest) w))
    as (w' & -> & Hrest & Hprompts & Hfs); try done.
  exists w'. split; [done|]. split; [done|]. split; [|done].
  rewrite Hprompts. cbn [after_selection trace log set_answers].
  rewrite !prompts_app, !length_app. cbn. lia.
Qed.

(** *** Browsing reads only *)

Lemma quiet_fold_each {A B} (l : list A) (acc : B) (body : B → A → M B) :
  (∀ acc x, attempts [] (body acc x)) → attempts [] (fold_each l acc body).
Proof.
  intros Hbody. revert acc. induction l as [|x l IH]; intros acc; [apply quiet_ret|].
  cbn [fold_each]. apply (attempts_bind []); [apply Hbody|done].
Qed.

Lemma quiet_open_r (p : string) : attempts [] (open_r p).
Proof. intros w. unfold open_r. rewrite app_nil_r. by repeat case_match. Qed.

Lemma quiet_path_join (d : pyval) (name : string) : attempts [] (path_join d name).
Proof. intros w. rewrite app_nil_r. by destruct d. Qed.

Lemma quiet_os_listdir (p : pyval) : attempts [] (os_listdir p).
Proof.
  intros w. rewrite app_nil_r. destruct p; try done; cbn [os_listdir]; by repeat case_match.
Qed.

Lemma quiet_print_markdown (md : string) : attempts [] (print_markdown md).
Proof.
  intros w. rewrite print_markdown_run. cbn [snd trace log].
  rewrite !scrapes_app. cbn. by rewrite !app_nil_r.
Qed.

Lemma quiet_inquirer_prompt (name message : string) (choices : list string) :
  attempts [] (inquirer_prompt name message choices).
Proof.
  intros w. rewrite inquirer_prompt_run. cbn [snd trace log set_answers].
  rewrite scrapes_app. cbn. by rewrite !app_nil_r.
Qed.

Lemma quiet_subscript (a : option string) : attempts [] (subscript a).
Proof. intros w. rewrite app_nil_r. by destruct a. Qed.

Lemma quiet_dict_lookup (key : string) (d : list (string * string)) :
  attempts [] (dict_lookup key d).
Proof.
  intros w. rewrite app_nil_r. induction d as [|[k v] d IH]; [done|]. cbn. by case_match.
Qed.

#[local] Hint Resolve quiet_open_r quiet_path_join quiet_os_listdir quiet_print_markdown
  quiet_inquirer_prompt quiet_subscript quiet_dict_lookup : quiet.

Lemma quiet_scan_directory (directory : pyval) (names : list string) :
  attempts [] (scan_directory directory names).
Proof. unfold scan_directory. apply quiet_fold_each. intros. quiet. Qed.

Lemma keeps_files_scan_directory (directory : pyval) (names : list string) :
  keeps_files (scan_directory directory names).
Proof. unfold scan_directory. keeps. Qed.

(** X21: browsing only reads: however a call of [browse_recipes] ends, and
    whatever the answers of the user, every file and directory is as it was
    before, and nothing was handed to the scraper. *)
Theorem browse_recipes_reads_only (depth : nat) (s : gmap string pyval) (w : world) :
  fs (browse_recipes depth s w).2 = fs w
  ∧ scrapes (trace (browse_recipes depth s w).2) = scrapes (trace w).
Proof.
  enough (keeps_files (browse_recipes depth s) ∧ attempts [] (browse_recipes depth s))
    as [Hf Ha].
  { split; [apply Hf|]. rewrite (Ha w). apply app_nil_r. }
  induction depth as [|depth [IHf IHa]]; [split; [done|apply quiet_raise]|].
  split; cbn [browse_recipes].
  - pose proof keeps_files_scan_directory. keeps.
  - pose proof quiet_scan_directory.
    repeat first
      [ progress auto with quiet
      | apply (attempts_bind []); [|intros]
      | apply (attempts_try_except []); [|intros]
      | match goal with
        | |- attempts _ (if ?b then _ else _) => destruct b
        | |- attempts _ (match ?x with [] => _ | _ :: _ => _ end) => destruct x
        end ].
Qed.

(** ** Loading the settings, continued *)

Lemma bind_Ret_inv {A B} (m : M A) (k : A → M B) (w w' : world) (b : B) :
  bind m k w = (Ret b, w') → ∃ a w1, m w = (Ret a, w1) ∧ k a w1 = (Ret b, w').
Proof. unfold bind. destruct (m w) as [[a|e] w1]; [eauto|done]. Qed.

Lemma keeps_session_run {A} (m : M A) (w w' : world) (r : res A) :
  keeps_session m → m w = (r, w') → cwd w' = cwd w ∧ env w' = env w.
Proof.
  intros Hm Hrun. specialize (Hm w). rewrite Hrun in Hm.
  unfold session in Hm. cbn in Hm. by simplify_eq.
Qed.

Lemma keeps_session_getenv {A} (f : environment → A) : keeps_session (getenv f).
Proof. done. Qed.

Lemma keeps_session_os_makedirs (p : pyval) : keeps_session (os_makedirs p).
Proof. intros w. destruct p; try done; cbn [os_makedirs]; by repeat case_match. Qed.

Lemma keeps_session_os_path_exists (p : string) : keeps_session (os_path_exists p).
Proof. done. Qed.

Lemma keeps_session_fwrite (f : list string) (text : string) :
  keeps_session (fwrite f text).
Proof. done. Qed.

Lemma keeps_session_yaml_load (text : string) : keeps_session (yaml_load text).
Proof. intros w. unfold yaml_load. by case_match. Qed.

Lemma keeps_session_settings_of_doc (doc : yaml_doc) :
  keeps_session (settings_of_doc doc).
Proof. destruct doc as [m|v]; [done|]. cbn. by destruct (truthy v). Qed.

#[local] Hint Resolve keeps_session_getenv keeps_session_os_makedirs
  keeps_session_os_path_exists keeps_session_fwrite keeps_session_yaml_load
  keeps_session_settings_of_doc : keeps.

Lemma is_dir_insert_dir (m : gmap (list string) node) (k k' : list string) :
  is_dir m k' = true → is_dir (<[k := Dir]> m) k' = true.
Proof.
  destruct k' as [|a k']; [done|]. unfold is_dir.
  destruct (decide (k = a :: k')) as [->|Hne];
    [by rewrite lookup_insert_eq|by rewrite lookup_insert_ne].
Qed.

(** The directory that was asked for exists afterwards. *)
Lemma makedirs_from_is_dir (rest : list string) (m m' : gmap (list string) node)
    (made : list string) :
  makedirs_from m made rest = Some m' →
  is_dir m made = true → is_dir m' (made ++ rest) = true.
Proof.
  revert m made. induction rest as [|n rest IH]; intros m made; cbn.
  { intros [= ->]. by rewrite app_nil_r. }
  destruct (is_file m (made ++ [n])); [done|]. intros H _.
  replace (made ++ n :: rest) with ((made ++ [n]) ++ rest)
    by (by rewrite <- (assoc_L (++))).
  apply (IH _ _ H).
  destruct (made ++ [n]) eqn:E; [done|]. unfold is_dir. by rewrite lookup_insert_eq.
Qed.

Lemma os_makedirs_inv (p : pyval) (w w' : world) :
  os_makedirs p w = (Ret tt, w') →
  ∃ d, (p = PStr d ∨ p = PBytes d)
       ∧ Str.is_empty d = false
       ∧ is_dir (fs w') (resolve (cwd w) d) = true
       ∧ cwd w' = cwd w.
Proof.
  destruct p as [| | |d|d|]; try done; cbn [os_makedirs];
    (destruct (Str.is_empty d) eqn:Ene; [done|];
     destruct (makedirs_from (fs w) [] (resolve (cwd w) d)) as [m|] eqn:Em; [|done];
     intros [= <-]; exists d; split; [by eauto|]; split; [done|]; split; [|done];
     cbn [fs set_fs]; by apply (makedirs_from_is_dir _ _ _ [] Em)).
Qed.

Lemma load_yaml_inv (w w' : world) (s : gmap string pyval) :
  load_yaml w = (Ret s, w') →
  ∃ d,
    (s !! "directory" = Some (PStr d) ∨ s !! "directory" = Some (PBytes d))
    ∧ Str.is_empty d = false
    ∧ is_dir (fs w') (resolve (cwd w') d) = true
    ∧ is_Some (s !! "time")
    ∧ is_Some (s !! "yield")
    ∧ cwd w' = cwd w.
Proof.
  unfold load_yaml. intros H.
  apply bind_Ret_inv in H as (ucd & w0 & [= <- <-] & H).
  apply bind_Ret_inv in H as ([] & w1 & H1 & H).
  apply (keeps_session_run _ _ _ _ (keeps_session_os_makedirs _)) in H1 as [Hc1 _].
  apply bind_Ret_inv in H as (b & w2 & [= <- <-] & H).
  apply bind_Ret_inv in H as ([] & w3 & H3 & H).
  assert (cwd w3 = cwd w1) as Hc3.
  { eapply keeps_session_run; [|apply H3]. keeps. }
  apply bind_Ret_inv in H as (text & w4 & H4 & H).
  apply (keeps_session_run _ _ _ _ (keeps_session_open_r _)) in H4 as [Hc4 _].
  apply bind_Ret_inv in H as (doc & w5 & H5 & H).
  apply (keeps_session_run _ _ _ _ (keeps_session_yaml_load _)) in H5 as [Hc5 _].
  apply bind_Ret_inv in H as (m & w6 & H6 & H).
  apply (keeps_session_run _ _ _ _ (keeps_session_settings_of_doc _)) in H6 as [Hc6 _].
  apply bind_Ret_inv in H as ([v m'] & w7 & H7 & H).
  assert (w7 = w6 ∧ m' !! "directory" = Some v
          ∧ (∀ key, key ≠ "directory" → m' !! key = m !! key))
    as (-> & Hv & Hother).
  { destruct (truthy (dict_get m "directory")) eqn:Et; cbn [negb] in H7.
    - injection H7 as <- <- <-. split; [done|]. split; [|done].
      unfold dict_get in *. by destruct (m !! "directory").
    - apply bind_Ret_inv in H7 as (h & w8 & [= <- <-] & [= <- <- <-]).
      split; [done|]. split; [apply lookup_insert_eq|].
      intros key Hkey. by rewrite lookup_insert_ne. }
  apply bind_Ret_inv in H as ([] & w8 & H8 & [= <- <-]).
  apply os_makedirs_inv in H8 as (d & Hvd & Hned & Hisdir & Hc8).
  exists d. rewrite !lookup_setdefault.
  repeat case_decide; try done.
  split; [destruct Hvd as [->| ->]; by eauto|]. split; [done|].
  split; [by rewrite Hc8|]. split; [by eauto|]. split; [by eauto|].
  congruence.
Qed.

(** X17: whenever [load_yaml] returns, the settings hold a "time" and a
    "yield" entry and a non-empty directory (a string, or a byte string),
    and that directory exists; the working directory is the one from
    before. *)
Theorem load_yaml_postcondition (w w' : world) (s : gmap string pyval) :
  load_yaml w = (Ret s, w') →
  ∃ d,
    (s !! "directory" = Some (PStr d) ∨ s !! "directory" = Some (PBytes d))
    ∧ Str.is_empty d = false
    ∧ is_dir (fs w') (resolve (cwd w') d) = true
    ∧ is_Some (s !! "time")
    ∧ is_Some (s !! "yield")
    ∧ cwd w' = cwd w.
Proof. apply load_yaml_inv. Qed.

Lemma keeps_session_batch_file (url : string) (s : gmap string pyval) :
  keeps_session
    (try_except
       (f <- open_r url ;;
        for_each (Str.readlines f)
          (λ line,
             let single_url := single_url_of line in
             try_except
               (save_recipe_to_markdown single_url s ;; ret tt)
               (λ e, console_print
                       (Str.nl +:+ "Error saving recipe from URL: " +:+ single_url +:+
                        ". Error: " +:+ exn_msg e +:+ Str.nl) "bright_red")))
       (λ e,
          (if is_FileNotFoundError (exn_cls e) then
             console_print
               (Str.nl +:+ "URL file not found. Please provide a valid file path." +:+
                Str.nl) "bright_red"
           else if is_OSError (exn_cls e) then
             console_print
               (Str.nl +:+ "I/O error(" +:+ errno (exn_cls e) +:+ "): " +:+
                strerror (exn_cls e) +:+ Str.nl) "bright_red"
           else
             console_print (Str.nl +:+ "An error occurred: " +:+ exn_msg e +:+ Str.nl)
               "bright_red") ;;
          raise e)).
Proof.
  apply keeps_session_try_except; [|intros; keeps].
  apply keeps_session_bind; [keeps|]. intros text.
  apply keeps_session_for_each. intros line. apply keeps_session_batch_line.
Qed.

(** X18: with the settings that [load_yaml] has returned, the batch
    operation always gets into its storage directory: whatever happens to
    the batch file and to the single saves, the process ends in the
    directory of the settings. *)
Theorem save_list_after_load_yaml (w w1 : world) (s : gmap string pyval)
    (url : string) :
  load_yaml w = (Ret s, w1) →
  ∃ d,
    (s !! "directory" = Some (PStr d) ∨ s !! "directory" = Some (PBytes d))
    ∧ cwd (save_list_of_recipes url s w1).2 = resolve (cwd w) d.
Proof.
  intros (d & Hd & Hne & Hdir & _ & _ & Hcwd)%load_yaml_inv.
  exists d. split; [done|]. unfold save_list_of_recipes.
  erewrite bind_Ret; last first.
  { apply try_except_Ret. unfold dict_getitem.
    instantiate (1 := set_cwd (resolve (cwd w1) d) w1).
    destruct Hd as [-> | ->]; (erewrite bind_Ret by done);
      cbn [os_chdir]; by rewrite Hne, Hdir. }
  pose proof (keeps_session_batch_file url s (set_cwd (resolve (cwd w1) d) w1)) as H.
  unfold session in H. cbn [cwd set_cwd] in H.
  injection H as _ -> _ _. by rewrite Hcwd.
Qed.

Lemma makedirs_from_lookup_longer (rest : list string) (m m' : gmap (list string) node)
    (made k : list string) :
  makedirs_from m made rest = Some m' →
  length (made ++ rest) < length k → m' !! k = m !! k.
Proof.
  revert m made. induction rest as [|n rest IH]; intros m made; cbn.
  { by intros [= ->]. }
  destruct (is_file m (made ++ [n])); [done|]. intros H Hlen.
  rewrite (IH _ _ H) by (rewrite !length_app in *; cbn in *; lia).
  rewrite lookup_insert_ne; [done|]. intros <-.
  rewrite !length_app in Hlen. cbn in Hlen. lia.
Qed.

Lemma makedirs_from_keeps_dir (rest : list string) (m m' : gmap (list string) node)
    (made k : list string) :
  makedirs_from m made rest = Some m' → is_dir m k = true → is_dir m' k = true.
Proof.
  revert m made. induction rest as [|n rest IH]; intros m made; cbn.
  { by intros [= ->]. }
  destruct (is_file m (made ++ [n])); [done|]. intros H Hk.
  apply (IH _ _ H). by apply is_dir_insert_dir.
Qed.

Lemma is_file_insert_file (m : gmap (list string) node) (k k' : list string) (c : string) :
  is_file (<[k := File c]> m) k' = if decide (k = k') then true else is_file m k'.
Proof.
  unfold is_file. case_decide as E; [subst; by rewrite lookup_insert_eq|].
  by rewrite lookup_insert_ne.
Qed.

(** X19: on a first run, when there is no configuration file and the parser
    reads the text of the default settings as their mapping, [load_yaml]
    creates the configuration directory and the file with the default text,
    creates the default storage directory and returns it with both display
    options switched on. *)
Theorem load_yaml_first_run (w : world) :
  can_makedirs w (config_dir (env w)) →
  fs w !! (resolve (cwd w) (config_dir (env w)) ++ ["config.yaml"]) = None →
  yaml_safe_load (env w) default_config_text
    = inr (YMapping {[ "directory" := PNone; "time" := PBool true;
                       "yield" := PBool true ]}) →
  can_makedirs
    (set_fs (<[resolve (cwd w) (config_dir (env w)) ++ ["config.yaml"]
               := File default_config_text]> (fs w)) w)
    (default_directory (env w)) →
  ∃ s w',
    load_yaml w = (Ret s, w')
    ∧ s !! "directory" = Some (PStr (default_directory (env w)))
    ∧ s !! "time" = Some (PBool true)
    ∧ s !! "yield" = Some (PBool true)
    ∧ fs w' !! (resolve (cwd w) (config_dir (env w)) ++ ["config.yaml"])
        = Some (File default_config_text)
    ∧ is_dir (fs w') (resolve (cwd w) (config_dir (env w))) = true
    ∧ is_dir (fs w') (resolve (cwd w) (default_directory (env w))) = true
    ∧ trace w' =
        trace w ++ [EvWrite (resolve (cwd w) (config_dir (env w)) ++ ["config.yaml"])].
Proof.
  intros Hcfg Hnone Hparse Hmk.
  set (kd := resolve (cwd w) (config_dir (env w))) in *.
  set (kc := kd ++ ["config.yaml"]) in *.
  assert (resolve (cwd w) (config_path (env w)) = kc) as Hkc by by apply resolve_join.
  assert (Str.is_empty (config_dir (env w)) = false) as Hne1
    by by apply os_path_join_nonempty.
  assert (Str.is_empty (config_path (env w)) = false) as Hne2
    by by apply os_path_join_nonempty.
  assert (Str.is_empty (default_directory (env w)) = false) as Hne3
    by by apply os_path_join_nonempty.
  destruct Hcfg as [m1 Hm1]. fold kd in Hm1.
  assert (is_dir m1 kd = true) as Hdir1 by by apply (makedirs_from_is_dir _ _ _ [] Hm1).
  assert (m1 !! kc = None) as Hnone1.
  { rewrite (makedirs_from_lookup_longer _ _ _ _ kc Hm1); [done|].
    unfold kc. rewrite app_nil_l, length_app.
    change (length ["config.yaml"]) with 1. lia. }
  assert (kc ≠ []) as Hkcne by (unfold kc; by destruct kd).
  set (m2 := <[kc := File default_config_text]> m1).
  destruct Hmk as [m3' Hm3']. cbn [fs cwd set_fs] in Hm3'.
  destruct (makedirs_from_ext (resolve (cwd w) (default_directory (env w)))
              (<[kc := File default_config_text]> (fs w)) m2 [])
    as [m3 Hm3]; [|by eauto|].
  { intros k. unfold m2. rewrite !is_file_insert_file. case_decide; [done|].
    symmetry. by apply (makedirs_from_is_file _ _ _ _ Hm1). }
  exists (setdefault "yield" (PBool true)
            (setdefault "time" (PBool true)
               (<["directory" := PStr (default_directory (env w))]>
                  {[ "directory" := PNone; "time" := PBool true;
                     "yield" := PBool true ]}))),
    (set_fs m3 (log (EvWrite kc) w)).
  split.
  - unfold load_yaml. erewrite bind_Ret by done. cbn [env].
    fold (config_dir (env w)). fold (config_path (env w)).
    erewrite bind_Ret; last first.
    { cbn [os_makedirs]. fold kd. by rewrite Hne1, Hm1. }
    erewrite bind_Ret; last first.
    { unfold os_path_exists. cbn [fs cwd set_fs]. rewrite Hne2, Hkc. done. }
    replace (is_dir m1 kc || is_file m1 kc) with false; last first.
    { unfold is_file. rewrite Hnone1. destruct kc; [done|].
      unfold is_dir. by rewrite Hnone1. }
    cbn [negb andb].
    erewrite bind_Ret; last first.
    { erewrite bind_Ret; last first.
      { unfold open_w. cbn [fs cwd set_fs]. rewrite Hne2, Hkc.
        replace (is_dir m1 kc) with false
          by (destruct kc; [done|]; unfold is_dir; by rewrite Hnone1).
        unfold kc at 1. rewrite removelast_last, Hdir1. done. }
      by apply fwrite_at. }
    rewrite str_app_nil_l. fold m2.
    erewrite bind_Ret; last first.
    { apply open_r_written; cbn [fs cwd set_fs log]; rewrite ?Hkc;
        [done|done|apply lookup_insert_eq]. }
    erewrite bind_Ret by (unfold yaml_load; cbn [env set_fs log]; by rewrite Hparse).
    cbn [settings_of_doc]. erewrite bind_Ret by done.
    match goal with |- context [dict_get ?m "directory"] =>
      replace (dict_get m "directory") with PNone by (vm_compute; reflexivity)
    end.
    cbn [truthy negb]. erewrite bind_Ret by done. cbn iota. cbn [env set_fs log].
    fold (default_directory (env w)).
    erewrite bind_Ret; last first.
    { cbn [os_makedirs fs cwd set_fs log]. by rewrite Hne3, Hm3. }
    done.
  - rewrite !lookup_setdefault. cbn [fs set_fs log trace cwd].
    split; [done|]. split; [done|]. split; [done|]. split; [|split; [|split]].
    + apply (makedirs_from_lookup_file _ _ _ _ _ _ Hm3). apply lookup_insert_eq.
    + apply (makedirs_from_keeps_dir _ _ _ _ _ Hm3).
      unfold m2. rewrite is_dir_insert_ne; [done|].
      unfold kc. intros E. apply (f_equal length) in E.
      rewrite length_app in E. change (length ["config.yaml"]) with 1 in E. lia.
    + by apply (makedirs_from_is_dir _ _ _ [] Hm3).
    + done.
Qed.

(** ** Failing early *)

(** X20: for a URL that cannot be scraped, [view_recipe] prints the message
    of the save and then the message of its own handler for the
    [UnboundLocalError] that follows, and returns: no file is written,
    nothing is rendered and the user is not asked anything. *)
Theorem view_recipe_scrape_failure (w : world) (url : string) (s : gmap string pyval)
    (prompt_save : bool) (e : exn) :
  web (env w) url = inl e →
  view_recipe url s prompt_save w =
    (Ret tt,
     log (EvPrint (Str.nl +:+ "An error occurred: " +:+ exn_msg unbound_scraper +:+ Str.nl)
            "bright_red")
       (log (EvPrint (Str.nl +:+ "Could not scrape recipe, error: " +:+ exn_msg e)
               "bright_cyan bold")
          (log (EvScrape url) w))).
Proof.
  intros Hweb. unfold view_recipe.
  erewrite try_except_Raise; last first.
  { erewrite bind_Raise; [done|]. by apply save_after_scrape_failure. }
  done.
Qed.

(** Without a directory in the settings, browsing stops at its first test. *)
Lemma browse_without_directory_setting (w : world) (s : gmap string pyval)
    (depth : nat) :
  truthy (dict_get s "directory") = false →
  browse_recipes (S depth) s w =
    (Ret tt,
     log (EvPrint (Str.nl +:+ "Directory not specified in the settings." +:+ Str.nl)
            "bright_red") w).
Proof. intros H. cbn [browse_recipes]. by rewrite H. Qed.

(** ** The further theorems at concrete inputs *)

Lemma save_touches_one_file_witness :
  fs Cases.stale_world !! Demo.lemon_cake_file = Some (File "an old text")
  ∧ ∃ w',
      save_recipe_to_markdown "https://example.com/lemon-cake" Demo.settings
        Cases.stale_world
        = (Ret (recipe_path "/home/cook/recipes" (title Demo.lemon_cake)), w')
      ∧ fs w' !! resolve (cwd Cases.stale_world)
                   (recipe_path "/home/cook/recipes" (title Demo.lemon_cake))
          = Some (File (markdown_document Demo.lemon_cake (truthy (PBool true))
                          (truthy (PBool true))))
      ∧ (∀ k', k' ≠ resolve (cwd Cases.stale_world)
                      (recipe_path "/home/cook/recipes" (title Demo.lemon_cake)) →
               fs w' !! k' = fs Cases.stale_world !! k')
      ∧ trace w' =
          trace Cases.stale_world ++
          [EvScrape "https://example.com/lemon-cake";
           EvWrite (resolve (cwd Cases.stale_world)
                      (recipe_path "/home/cook/recipes" (title Demo.lemon_cake)))].
Proof.
  split; [by_computation|].
  apply (save_touches_one_file Cases.stale_world "https://example.com/lemon-cake"
           "/home/cook/recipes" "an old text" Demo.settings Demo.lemon_cake
           (PBool true) (PBool true)); by_computation.
Defined.

Lemma save_without_directory_witness :
  ∃ e,
    save_recipe_to_markdown "https://example.com/soup" Cases.settings_without_directory
      (Demo.start ∅ [])
      = (Raise e, log (EvScrape "https://example.com/soup") (Demo.start ∅ []))
    ∧ exn_cls e = TypeError.
Proof.
  apply (save_without_directory (Demo.start ∅ []) "https://example.com/soup"
           Cases.settings_without_directory Demo.soup); [by_computation|].
  intros d. by_computation.
Defined.

Lemma save_with_missing_key_witness :
  Cases.settings_without_yield !! "yield" = None
  ∧ ∃ w',
      save_recipe_to_markdown "https://example.com/soup" Cases.settings_without_yield
        (Demo.start ∅ []) = (Raise (Exn KeyError "'yield'"), w')
      ∧ fs w' !! resolve (cwd (Demo.start ∅ []))
                   (recipe_path "/home/cook/recipes" (title Demo.soup))
        = Some (File (("# " +:+ Str.replace " " "-" (title Demo.soup)) +:+ Str.nl))
      ∧ writes (trace w') =
          writes (trace (Demo.start ∅ [])) ++
          [resolve (cwd (Demo.start ∅ []))
             (recipe_path "/home/cook/recipes" (title Demo.soup))].
Proof.
  split; [by_computation|].
  apply (save_with_missing_key (Demo.start ∅ []) "https://example.com/soup"
           "/home/cook/recipes" Cases.settings_without_yield Demo.soup);
    by_computation.
Defined.

Lemma view_recipe_saves_twice_witness :
  ∃ w',
    view_recipe "https://example.com/soup" Demo.settings true
      (Demo.start ∅ [Some "Save this recipe"]) = (Ret tt, w')
    ∧ scrapes (trace w') =
        scrapes (trace (Demo.start ∅ [Some "Save this recipe"])) ++
        ["https://example.com/soup"; "https://example.com/soup"]
    ∧ writes (trace w') =
        writes (trace (Demo.start ∅ [Some "Save this recipe"])) ++
        [resolve (cwd (Demo.start ∅ [Some "Save this recipe"]))
           (recipe_path "/home/cook/recipes" (title Demo.soup));
         resolve (cwd (Demo.start ∅ [Some "Save this recipe"]))
           (recipe_path "/home/cook/recipes" (title Demo.soup))]
    ∧ prints (trace w') =
        prints (trace (Demo.start ∅ [Some "Save this recipe"])) ++
        [Str.nl +:+ "Recipe saved successfully." +:+ Str.nl]
    ∧ answers w' = []
    ∧ fs w' !! resolve (cwd (Demo.start ∅ [Some "Save this recipe"]))
                 (recipe_path "/home/cook/recipes" (title Demo.soup))
        = Some (File (markdown_document Demo.soup (truthy (PBool true))
                        (truthy (PBool true)))).
Proof.
  apply (view_recipe_saves_twice (Demo.start ∅ [Some "Save this recipe"])
           "https://example.com/soup" "/home/cook/recipes" Demo.settings Demo.soup
           (PBool true) (PBool true) []); by_computation.
Defined.

Lemma save_list_directory_not_found_witness :
  save_list_of_recipes "/home/cook/urls.txt" Cases.settings_elsewhere
    (Demo.batch_world Demo.three_urls) =
    (Raise (os_error FileNotFoundError "/home/cook/nowhere"),
     log (EvPrint (Str.nl +:+ "Directory not found. Please check the settings." +:+
                   Str.nl) "bright_red") (Demo.batch_world Demo.three_urls)).
Proof.
  apply (save_list_directory_not_found (Demo.batch_world Demo.three_urls)
           "/home/cook/urls.txt" "/home/cook/nowhere" Cases.settings_elsewhere);
    by_computation.
Defined.

Lemma save_list_url_file_not_found_witness :
  fs (Demo.start ∅ []) !! ["home"; "cook"; "recipes"; "urls.txt"] = None
  ∧ save_list_of_recipes "urls.txt" Demo.settings (Demo.start ∅ []) =
      (Raise (os_error FileNotFoundError "urls.txt"),
       log (EvPrint (Str.nl +:+ "URL file not found. Please provide a valid file path." +:+
                     Str.nl) "bright_red")
         (set_cwd (resolve (cwd (Demo.start ∅ [])) "/home/cook/recipes")
            (Demo.start ∅ []))).
Proof.
  split; [by_computation|].
  apply (save_list_url_file_not_found (Demo.start ∅ []) "urls.txt"
           "/home/cook/recipes" Demo.settings); by_computation.
Defined.

Lemma save_list_stays_in_storage_directory_witness :
  ∃ w',
    save_list_of_recipes "/home/cook/urls.txt" Demo.settings
      (Demo.batch_world Demo.three_urls) = (Ret tt, w')
    ∧ cwd w' = resolve (cwd (Demo.batch_world Demo.three_urls)) "/home/cook/recipes"
    ∧ answers w' = answers (Demo.batch_world Demo.three_urls)
    ∧ prompts (trace w') = prompts (trace (Demo.batch_world Demo.three_urls)).
Proof.
  apply (save_list_stays_in_storage_directory (Demo.batch_world Demo.three_urls)
           "/home/cook/urls.txt" "/home/cook/recipes" Demo.three_urls Demo.settings);
    by_computation.
Defined.

Lemma view_recipe_scrape_failure_witness :
  view_recipe "https://example.com/missing" Demo.settings true (Demo.start ∅ []) =
    (Ret tt,
     log (EvPrint (Str.nl +:+ "An error occurred: " +:+ exn_msg unbound_scraper +:+ Str.nl)
            "bright_red")
       (log (EvPrint (Str.nl +:+ "Could not scrape recipe, error: " +:+
                      exn_msg (Exn OtherError "no recipe at https://example.com/missing"))
               "bright_cyan bold")
          (log (EvScrape "https://example.com/missing") (Demo.start ∅ [])))).
Proof.
  apply (view_recipe_scrape_failure (Demo.start ∅ []) "https://example.com/missing"
           Demo.settings true (Exn OtherError "no recipe at https://example.com/missing")).
  by_computation.
Defined.

Lemma library_is_plain (answers : list (option string)) :
  plain_directory (fs (Cases.library answers))
    (resolve (cwd (Cases.library answers)) "/home/cook/recipes").
Proof.
  intros name Hname%elem_of_entries.
  assert (entries (fs (Cases.library answers))
            (resolve (cwd (Cases.library answers)) "/home/cook/recipes")
          = ["notes.txt"; "soup.md"]) as E by by_computation.
  rewrite E in Hname.
  apply elem_of_cons in Hname as [->|Hname];
    [|apply list_elem_of_singleton in Hname as ->];
    (split; [reflexivity|intros _; by_computation]).
Qed.

Lemma library_holds_soup (answers : list (option string)) :
  titled_file (fs (Cases.library answers))
    (resolve (cwd (Cases.library answers)) "/home/cook/recipes")
    "/home/cook/recipes" "Soup" "/home/cook/recipes/soup.md" Cases.soup_text.
Proof. exists "soup.md". repeat split; by_computation. Qed.

Lemma browse_menu_and_quit_witness :
  ∃ titles,
    NoDup titles
    ∧ (∀ t, t ∈ titles ↔
            ∃ path c, titled_file (fs (Cases.library [Some "Quit"]))
                        (resolve (cwd (Cases.library [Some "Quit"])) "/home/cook/recipes")
                        "/home/cook/recipes" t path c)
    ∧ browse_recipes 1 Demo.settings (Cases.library [Some "Quit"]) =
        (Ret tt,
         set_answers []
           (log (EvPrompt "recipe" "Select a recipe to view" (titles ++ ["Quit"]))
              (Cases.library [Some "Quit"]))).
Proof.
  apply (browse_menu_and_quit (Cases.library [Some "Quit"]) Demo.settings
           "/home/cook/recipes") with (t0 := "Soup")
           (path0 := "/home/cook/recipes/soup.md") (c0 := Cases.soup_text);
    [by_computation|by_computation|by_computation|apply library_is_plain
    |apply library_holds_soup|by_computation].
Defined.

Lemma browse_view_then_quit_witness :
  ∃ titles path c,
    titled_file (fs (Cases.library [Some "Soup"; Some "Quit"]))
      (resolve (cwd (Cases.library [Some "Soup"; Some "Quit"])) "/home/cook/recipes")
      "/home/cook/recipes" "Soup" path c
    ∧ browse_recipes 1 Demo.settings (Cases.library [Some "Soup"; Some "Quit"]) =
        (Ret tt,
         after_selection titles (read_text c) []
           (Cases.library [Some "Soup"; Some "Quit"])).
Proof.
  apply (browse_view_then_quit (Cases.library [Some "Soup"; Some "Quit"]) Demo.settings
           "/home/cook/recipes") with (path0 := "/home/cook/recipes/soup.md")
           (c0 := Cases.soup_text);
    [by_computation|by_computation|by_computation|apply library_is_plain
    |apply library_holds_soup|by_computation|by_computation].
Defined.

Lemma browse_recursion_limit_witness :
  ∃ w',
    browse_recipes 2 Demo.settings
      (Cases.library [Some "Soup"; Some "Back to menu"; Some "Soup"; Some "Back to menu"])
      = (Raise (Exn RecursionError "maximum recursion depth exceeded"), w')
    ∧ answers w' = []
    ∧ length (prompts (trace w')) =
        length (prompts (trace (Cases.library
                  [Some "Soup"; Some "Back to menu"; Some "Soup"; Some "Back to menu"])))
        + 2 * 2
    ∧ fs w' = fs (Cases.library
                    [Some "Soup"; Some "Back to menu"; Some "Soup"; Some "Back to menu"]).
Proof.
  apply (browse_recursion_limit 2
           (Cases.library [Some "Soup"; Some "Back to menu"; Some "Soup";
                           Some "Back to menu"])
           Demo.settings "/home/cook/recipes" "Soup" "/home/cook/recipes/soup.md"
           Cases.soup_text []);
    [by_computation|by_computation|by_computation|apply library_is_plain
    |apply library_holds_soup|by_computation|by_computation].
Defined.

Lemma load_yaml_postcondition_witness :
  ∃ s w' d,
    load_yaml (Demo.config_world Demo.time_off_config) = (Ret s, w')
    ∧ (s !! "directory" = Some (PStr d) ∨ s !! "directory" = Some (PBytes d))
    ∧ Str.is_empty d = false
    ∧ is_dir (fs w') (resolve (cwd w') d) = true
    ∧ is_Some (s !! "time")
    ∧ is_Some (s !! "yield")
    ∧ cwd w' = cwd (Demo.config_world Demo.time_off_config).
Proof.
  assert (load_yaml (Demo.config_world Demo.time_off_config)
          = (Ret match (load_yaml (Demo.config_world Demo.time_off_config)).1 with
                 | Ret s => s
                 | Raise _ => ∅
                 end,
             (load_yaml (Demo.config_world Demo.time_off_config)).2)) as E
    by (vm_compute; reflexivity).
  destruct (load_yaml_postcondition _ _ _ E) as (d & H).
  exact (ex_intro _ _ (ex_intro _ _ (ex_intro _ d (conj E H)))).
Defined.

Lemma save_list_after_load_yaml_witness :
  ∃ s w1 d,
    load_yaml (Demo.config_world Demo.time_off_config) = (Ret s, w1)
    ∧ (s !! "directory" = Some (PStr d) ∨ s !! "directory" = Some (PBytes d))
    ∧ cwd (save_list_of_recipes "/home/cook/urls.txt" s w1).2
      = resolve (cwd (Demo.config_world Demo.time_off_config)) d.
Proof.
  assert (load_yaml (Demo.config_world Demo.time_off_config)
          = (Ret match (load_yaml (Demo.config_world Demo.time_off_config)).1 with
                 | Ret s => s
                 | Raise _ => ∅
                 end,
             (load_yaml (Demo.config_world Demo.time_off_config)).2)) as E
    by (vm_compute; reflexivity).
  destruct (save_list_after_load_yaml _ _ _ "/home/cook/urls.txt" E) as (d & H).
  exact (ex_intro _ _ (ex_intro _ _ (ex_intro _ d (conj E H)))).
Defined.

Lemma load_yaml_first_run_witness :
  fs (Demo.start ∅ []) !! Demo.config_file = None
  ∧ ∃ s w',
      load_yaml (Demo.start ∅ []) = (Ret s, w')
      ∧ s !! "directory" = Some (PStr (default_directory (env (Demo.start ∅ []))))
      ∧ s !! "time" = Some (PBool true)
      ∧ s !! "yield" = Some (PBool true)
      ∧ fs w' !! (resolve (cwd (Demo.start ∅ [])) (config_dir (env (Demo.start ∅ [])))
                  ++ ["config.yaml"])
          = Some (File default_config_text)
      ∧ is_dir (fs w')
          (resolve (cwd (Demo.start ∅ [])) (config_dir (env (Demo.start ∅ [])))) = true
      ∧ is_dir (fs w')
          (resolve (cwd (Demo.start ∅ []))
             (default_directory (env (Demo.start ∅ [])))) = true
      ∧ trace w' =
          trace (Demo.start ∅ []) ++
          [EvWrite (resolve (cwd (Demo.start ∅ [])) (config_dir (env (Demo.start ∅ [])))
                    ++ ["config.yaml"])].
Proof.
  split; [by_computation|].
  apply (load_yaml_first_run (Demo.start ∅ [])).
  - can_makedirs.
  - by_computation.
  - by_computation.
  - can_makedirs.
Defined.
